(** * Syllabus: task spaces and curriculum synchronisation

    A shallow embedding of [syllabus/task_space/task_space.py] and
    [syllabus/core/curriculum_sync_wrapper.py], and the properties of the
    task-space contract and of the two synchronisation engines.

    Python values are modelled as the code has them: an [int] is a [Z], a
    [dict] is a [gmap], a raised exception is an explicit [Raise] outcome,
    an attribute assignment is a record update. *)

From stdpp Require Import gmap strings list.
From Stdlib Require Import ZArith Lia.

Set Warnings "-register-all".

Local Open Scope Z_scope.

(** ** Exceptions and outcomes *)

Inductive exn :=
  | AssertionError
  | NotImplementedError
  | KeyError
  | TypeError
  | OverflowError
  | AttributeError
  | ValueError.

Inductive result (A : Type) :=
  | Ret (a : A)
  | Raise (e : exn).
Arguments Ret {A} a.
Arguments Raise {A} e.

(** Sequencing: an exception leaves the rest of the block unexecuted. *)
Global Instance result_bind : MBind result := fun A B k r =>
  match r with
  | Ret a => k a
  | Raise e => Raise e
  end.

(** A list comprehension [[f(x) for x in l]]: the elements are evaluated
    from left to right and the first exception leaves the comprehension. *)
Fixpoint comprehension {A B} (f : A → result B) (l : list A) : result (list B) :=
  match l with
  | [] => Ret []
  | x :: l' => y ← f x; ys ← comprehension f l'; Ret (y :: ys)
  end.

(** [try: return body except Exception: return None]. *)
Definition try_except_none {A} (none : A) (body : result A) : result A :=
  match body with
  | Ret v => Ret v
  | Raise _ => Ret none
  end.

(** ** Domain descriptors *)

(** The argument of [_sum_axes]: an integer size, a list (or array) of
    such, or an object of another type. *)
Inductive axes :=
  | Size (n : Z)
  | Axes (l : list axes)
  | NotAxes.

(** Modelled from the spec: the [gym.spaces] classes are imported, not
    defined, by the repository; the descriptor follows the data model of
    the specification (Discrete(n), Box, Tuple and Dict of subspaces,
    MultiDiscrete and MultiBinary with their axis sizes [nvec]). The
    bounds of a Box are floating-point numbers and are left out. *)
Inductive Space :=
  | Discrete (n : Z)
  | Box (shape : list Z)
  | Tuple (spaces : list Space)
  | Dict (spaces : list (string * Space))
  | MultiDiscrete (nvec : axes)
  | MultiBinary (nvec : axes).

(** The [amount] handed to [increase_space]: an [int], or a [float] whose
    value the code never reads. *)
Inductive amount :=
  | AInt (a : Z)
  | AFloat.

(** ** NumPy arithmetic *)

Definition int64_min : Z := - 2 ^ 63.
Definition int64_max : Z := 2 ^ 63 - 1.

Definition in_int64 (i : Z) : bool := (int64_min <=? i) && (i <=? int64_max).

(** Arithmetic on [np.int64] wraps around silently. *)
Definition wrap_int64 (x : Z) : Z := (x + 2 ^ 63) mod 2 ^ 64 - 2 ^ 63.

(** [np.prod] of a list of integers, computed in [np.int64]. *)
Definition np_prod (l : list Z) : Z := wrap_int64 (foldr Z.mul 1 l).

(** The built-in [sum] over a list whose elements are integers or [None]:
    adding [None] to an integer is a [TypeError]. *)
Fixpoint py_sum (l : list (option Z)) : result Z :=
  match l with
  | [] => Ret 0
  | Some x :: l' => s ← py_sum l'; Ret (x + s)
  | None :: _ => Raise TypeError
  end.

(** A call [f(kw=arg)] of a method whose only parameter besides [self] is
    named [param]: another keyword is a [TypeError] (unexpected keyword
    argument) and the body does not run. *)
Definition call_keyword {A B} (param : string) (f : A → result B)
    (kw : string) (arg : A) : result B :=
  if String.eqb kw param then f arg else Raise TypeError.

(** ** The task space *)

Module TaskSpace.

(** Python values that reach [encode] and [decode]: an [int], [None], or
    another object (a task). *)
Inductive pyval (Task : Type) :=
  | PyInt (i : Z)
  | PyNone
  | PyObj (t : Task).
Arguments PyInt {Task} i.
Arguments PyNone {Task}.
Arguments PyObj {Task} t.

(** What the interpreter and the libraries decide for opaque task objects.
    - [set_iter s]: the order in which a [set] yields its elements, [s]
      being the elements in the order of their insertion. Python leaves
      the order unspecified; in CPython it is the order of the slots of a
      hash table.
    - [np_contains space x]: [space.contains(np.asarray(x, dtype=space.dtype))]
      where it is not decided below (a Box, or an object that is not an
      [int]); it may raise.
    - [int_key t]: the [int] that the object [t] equals as a dictionary
      key, if any.
    - [task_len t]: [len(t)], [None] when the object has no length.
    - [is_none t]: the object [t] is [None]. *)
Class PyRuntime (Task : Type) := {
  set_iter : list Task → list Task;
  np_contains : Space → pyval Task → result bool;
  int_key : Task → option Z;
  task_len : Task → option Z;
  is_none : Task → bool;
}.

Section task_space.
Context {Task : Type} `{Countable Task} `{!PyRuntime Task}.

(** *** Python collections *)

(** A [set] is kept as its elements in insertion order, without
    duplicates; iteration goes through [set_iter]. *)
Definition set_add (t : Task) (s : list Task) : list Task :=
  if decide (t ∈ s) then s else s ++ [t].

Definition set_of_list (l : list Task) : list Task :=
  foldl (fun s t => set_add t s) [] l.

(** The [tasks] argument of [_make_task_encoder] is the list handed to the
    constructor, or the set [self._tasks]. *)
Inductive collection :=
  | PyList (l : list Task)
  | PySet (s : list Task).

Definition len (c : collection) : Z :=
  match c with
  | PyList l => Z.of_nat (length l)
  | PySet s => Z.of_nat (length s)
  end.

Definition iter (c : collection) : list Task :=
  match c with
  | PyList l => l
  | PySet s => set_iter s
  end.

(** [enumerate(iterable, start)]. *)
Fixpoint enumerate_from (start : Z) (l : list Task) : list (Z * Task) :=
  match l with
  | [] => []
  | t :: l' => (start, t) :: enumerate_from (start + 1) l'
  end.

Definition enumerate (l : list Task) : list (Z * Task) := enumerate_from 0 l.

(** [{task: i for i, task in enumerate(tasks)}]: a later pair overwrites
    an earlier one with the same key. *)
Definition make_encode_map (l : list Task) : gmap Task Z :=
  foldl (fun m p => <[p.2 := p.1]> m) ∅ (enumerate l).

(** [{i: task for i, task in enumerate(tasks)}]. *)
Definition make_decode_map (l : list Task) : gmap Z Task :=
  foldl (fun m p => <[p.1 := p.2]> m) ∅ (enumerate l).

(** *** The object *)

(** The two lambdas built by [_make_task_encoder]: the Discrete ones read
    the maps of [self] when they are called, the Box ones close over the
    space they were built for. *)
Inductive closure :=
  | MapLookup
  | BoxFilter (space : Space).

Record t := mk {
  gym_space : option Space;
  _encoder : closure;
  _decoder : closure;
  _encode_map : gmap Task Z;
  _decode_map : gmap Z Task;
  _tasks : list Task;
}.

Definition set_gym_space (self : t) (sp : option Space) : t :=
  mk sp (_encoder self) (_decoder self) (_encode_map self) (_decode_map self)
     (_tasks self).

Definition set_coders (self : t) (e d : closure) : t :=
  mk (gym_space self) e d (_encode_map self) (_decode_map self) (_tasks self).

Definition set_maps (self : t) (em : gmap Task Z) (dm : gmap Z Task) : t :=
  mk (gym_space self) (_encoder self) (_decoder self) em dm (_tasks self).

Definition set_tasks (self : t) (s : list Task) : t :=
  mk (gym_space self) (_encoder self) (_decoder self) (_encode_map self)
     (_decode_map self) s.

(** [_make_task_encoder(space, tasks)]: the outcome and [self] afterwards.
    [space] is [None] once [increase_space] has returned nothing. *)
Definition _make_task_encoder (self : t) (space : option Space)
    (tasks : collection) : result (closure * closure) * t :=
  match space with
  | Some (Discrete n) =>
      if decide (n = len tasks) then
        (Ret (MapLookup, MapLookup),
         set_maps self (make_encode_map (iter tasks)) (make_decode_map (iter tasks)))
      else (Raise AssertionError, self)
  | Some (Box shape) =>
      (Ret (BoxFilter (Box shape), BoxFilter (Box shape)), self)
  | Some (Tuple spaces) =>
      (* [assert space.spaces == len(task)] compares a tuple with an int *)
      match iter tasks with
      | [] => (Raise NotImplementedError, self)
      | task :: _ =>
          match task_len task with
          | Some _ => (Raise AssertionError, self)
          | None => (Raise TypeError, self)
          end
      end
  | Some (Dict _) | Some (MultiDiscrete _) | Some (MultiBinary _) | None =>
      (Raise NotImplementedError, self)
  end.

(** The object before [__init__] has assigned its attributes; none of them
    is read before it is assigned. *)
Definition blank : t := mk None MapLookup MapLookup ∅ ∅ [].

Definition __init__ (gym_space : Space) (tasks : list Task) : result t :=
  let self := set_gym_space blank (Some gym_space) in
  match _make_task_encoder self (Some gym_space) (PyList tasks) with
  | (Ret (e, d), self) => Ret (set_tasks (set_coders self e d) (set_of_list tasks))
  | (Raise e, _) => Raise e
  end.

(** [self.gym_space.contains(np.asarray(encoding, dtype=self.gym_space.dtype))].
    A Discrete space has dtype [np.int64]: an [int] outside that range is
    an [OverflowError] of the conversion, [None] is a [TypeError]; the
    space contains a scalar integer [i] when [0 <= i < n]. *)
Definition contains_asarray (space : Space) (x : pyval Task) : result bool :=
  match space, x with
  | Discrete n, PyInt i =>
      if in_int64 i then Ret ((0 <=? i) && (i <? n)) else Raise OverflowError
  | Discrete n, PyNone => Raise TypeError
  | _, _ => np_contains space x
  end.

(** [self._decode_map[encoding]]. *)
Definition decode_map_getitem (self : t) (encoding : pyval Task) : result (pyval Task) :=
  let key := match encoding with
             | PyInt i => Some i
             | PyNone => None
             | PyObj o => int_key o
             end in
  match key ≫= (fun i => _decode_map self !! i) with
  | Some task => Ret (PyObj task)
  | None => Raise KeyError
  end.

Definition call_decoder (self : t) (encoding : pyval Task) : result (pyval Task) :=
  match _decoder self with
  | MapLookup => decode_map_getitem self encoding
  | BoxFilter space =>
      b ← np_contains space encoding;
      Ret (if b : bool then encoding else PyNone)
  end.

Definition call_encoder (self : t) (task : Task) : result (pyval Task) :=
  match _encoder self with
  | MapLookup =>
      match _encode_map self !! task with
      | Some i => Ret (PyInt i)
      | None => Raise KeyError
      end
  | BoxFilter space =>
      b ← np_contains space (PyObj task);
      Ret (if b : bool then PyObj task else PyNone)
  end.

Definition decode (self : t) (encoding : pyval Task) : result (pyval Task) :=
  match gym_space self with
  | None => Raise AttributeError
  | Some space =>
      inside ← contains_asarray space encoding;
      if inside : bool then call_decoder self encoding else Ret PyNone
  end.

Definition encode (self : t) (task : Task) : result (pyval Task) :=
  try_except_none PyNone (call_encoder self task).

(** [increase_space(amount)]: the new space, or [None] when the function
    falls off its end. *)
Definition increase_space (self : t) (amt : amount) : result (option Space) :=
  match gym_space self with
  | Some (Discrete n) =>
      match amt with
      | AInt a => Ret (Some (Discrete (n + a)))
      | AFloat => Raise AssertionError
      end
  | _ => Ret None
  end.

(** [add_task(task)]: the outcome and [self] afterwards; the attributes
    assigned before an exception keep their new values. *)
Definition add_task (self : t) (task : Task) : result unit * t :=
  if decide (task ∈ _tasks self) then (Ret tt, self)
  else
    let self := set_tasks self (set_add task (_tasks self)) in
    match increase_space self (AInt 1) with
    | Raise e => (Raise e, self)
    | Ret space =>
        let self := set_gym_space self space in
        match _make_task_encoder self (gym_space self) (PySet (_tasks self)) with
        | (Ret (e, d), self) => (Ret tt, set_coders self e d)
        | (Raise e, self) => (Raise e, self)
        end
    end.

(** [_sum_axes(list_or_size)]. *)
Fixpoint _sum_axes (list_or_size : axes) : result Z :=
  match list_or_size with
  | Size n => Ret n
  | Axes l =>
      xs ← comprehension _sum_axes l;
      Ret (np_prod xs)
  | NotAxes => Raise NotImplementedError
  end.

(** The name of the parameter of [count_tasks(self, gym_space=None)]. *)
Definition count_tasks_param : string := "gym_space".

(** The body of [count_tasks] once [gym_space] is a space. The recursive
    calls are written [self.count_tasks(task_space=s)]. The result is an
    integer, or [None] for a Box. *)
Fixpoint count_tasks_of (gym_space : Space) : result (option Z) :=
  match gym_space with
  | Discrete n => Ret (Some n)
  | Box _ => Ret None
  | Tuple spaces =>
      counts ← comprehension
                 (fun s => call_keyword count_tasks_param count_tasks_of "task_space" s)
                 spaces;
      n ← py_sum counts; Ret (Some n)
  | Dict spaces =>
      (* [for s in gym_space.spaces.values()] *)
      counts ← comprehension
                 (fun '(_, s) => call_keyword count_tasks_param count_tasks_of "task_space" s)
                 spaces;
      n ← py_sum counts; Ret (Some n)
  | MultiBinary nvec => n ← _sum_axes nvec; Ret (Some n)
  | MultiDiscrete nvec => n ← _sum_axes nvec; Ret (Some n)
  end.

(** [count_tasks(gym_space=None)]. *)
Definition count_tasks (self : t) (gym_space_arg : option Space) : result (option Z) :=
  let gym_space_arg :=
    match gym_space_arg with
    | None => gym_space self
    | Some s => Some s
    end in
  match gym_space_arg with
  | Some s => count_tasks_of s
  | None => Ret (Some 0)
  end.

Definition num_tasks (self : t) : result (option Z) := count_tasks self None.

(** *** Enumeration *)

(** The objects that [get_tasks] builds: an integer, a tuple, a list, or
    the iterator that [itertools.product] returns, with what it yields. *)
Inductive enumerated :=
  | EInt (i : Z)
  | ETuple (items : list enumerated)
  | EList (items : list enumerated)
  | EIterator (items : list enumerated).

(** [range(n)]: empty when [n] is not positive. *)
Definition py_range (n : Z) : list Z := Z.of_nat <$> seq 0 (Z.to_nat n).

(** [itertools.product( *iterables)]: the rightmost iterable varies
    fastest; the product of no iterable is the empty tuple alone. *)
Fixpoint product {A} (iterables : list (list A)) : list (list A) :=
  match iterables with
  | [] => [[]]
  | l :: iterables' => x ← l; (cons x) <$> product iterables'
  end.

(** [_enumerate_axes(list_or_size)]: a tuple, kept as its items. *)
Fixpoint _enumerate_axes (list_or_size : axes) : result (list enumerated) :=
  match list_or_size with
  | Size n => Ret (EInt <$> py_range n)
  | Axes l =>
      xs ← comprehension _enumerate_axes l;
      Ret (ETuple <$> product xs)
  | NotAxes => Raise NotImplementedError
  end.

(** The first parameter of [get_tasks(self, gym_space=None,
    sample_interval=None)]; the second one is never passed. *)
Definition get_tasks_param : string := "gym_space".

(** The body of [get_tasks] once [gym_space] is a space. The recursive
    calls are written [self.get_tasks(task_space=s)], and their results go
    to [itertools.product] as one iterable, not unpacked. *)
Fixpoint get_tasks_of (gym_space : Space) : result enumerated :=
  match gym_space with
  | Discrete n => Ret (EList (EInt <$> py_range n))
  | Box _ => Raise NotImplementedError
  | Tuple spaces =>
      ls ← comprehension
             (fun s => call_keyword get_tasks_param get_tasks_of "task_space" s)
             spaces;
      Ret (EList (ETuple <$> product [ls]))
  | Dict spaces =>
      ls ← comprehension
             (fun '(_, s) => call_keyword get_tasks_param get_tasks_of "task_space" s)
             spaces;
      Ret (EIterator (ETuple <$> product [ls]))
  | MultiBinary nvec => xs ← _enumerate_axes nvec; Ret (EList xs)
  | MultiDiscrete nvec => xs ← _enumerate_axes nvec; Ret (EList xs)
  end.

(** [get_tasks(gym_space=None)]. *)
Definition get_tasks (self : t) (gym_space_arg : option Space) : result enumerated :=
  let gym_space_arg :=
    match gym_space_arg with
    | None => gym_space self
    | Some s => Some s
    end in
  match gym_space_arg with
  | Some s => get_tasks_of s
  | None => Ret (EList [])
  end.

(** The property [tasks]. *)
Definition tasks (self : t) : result enumerated := get_tasks self None.

(** [x in self._tasks] for what [decode] returned: a task object is
    looked up as it is, an [int] is in the set when a task equals it, and
    [None] is in the set when [None] is one of the tasks. *)
Definition in_tasks (self : t) (x : pyval Task) : bool :=
  match x with
  | PyObj task => bool_decide (task ∈ _tasks self)
  | PyInt i => bool_decide (Exists (fun task => int_key task = Some i) (_tasks self))
  | PyNone => bool_decide (Exists (fun task => is_none task = true) (_tasks self))
  end.

(** [contains(task)]: the argument goes to [decode]. *)
Definition contains (self : t) (task : pyval Task) : result bool :=
  decoded ← decode self task; Ret (in_tasks self decoded).

End task_space.

Arguments t Task {_ _}.
Arguments collection Task : clear implicits.

End TaskSpace.

(** ** The curriculum contract *)

Module Curriculum.

(** One update entry: a dictionary with the outcome fields of the
    environment and, possibly, the key ["request_sample"]. *)
Record update (Metrics : Type) := mk_update {
  fields : Metrics;
  request_sample : option bool;
}.
Arguments mk_update {Metrics} fields request_sample.
Arguments fields {Metrics} u.
Arguments request_sample {Metrics} u.

(** The operations of a curriculum that the wrappers call. A curriculum is
    a mutable object: each operation returns it as it is afterwards. *)
Class Curriculum (C Task Metrics : Type) := {
  sample : C → Z → list Task * C;
  batch_update_curriculum : C → list (update Metrics) → C;
  add_task : C → Task → C;
}.

End Curriculum.

(** ** The queue synchronisation wrapper *)

Module MultiProcessingCurriculumWrapper.
Import Curriculum.

(** An assignment message: ["next_task"] and, except in the seed messages
    of [start], ["added_tasks"]. *)
Record message (Task : Type) := mk_message {
  next_task : Task;
  added_tasks : option (list Task);
}.
Arguments mk_message {Task} next_task added_tasks.
Arguments next_task {Task} m.
Arguments added_tasks {Task} m.

(** What a worker puts on the update queue: one entry (a [dict]) or a
    list of entries. *)
Inductive update_item (Metrics : Type) :=
  | OneUpdate (u : update Metrics)
  | UpdateList (l : list (update Metrics)).
Arguments OneUpdate {Metrics} u.
Arguments UpdateList {Metrics} l.

(** The queue operations of the wrapper, in the order in which they
    happen. *)
Inductive event (Task Metrics : Type) :=
  | Seed (m : message Task)
  | Dispatch (m : message Task)
  | Consume (batch : list (update Metrics)).
Arguments Seed {Task Metrics} m.
Arguments Dispatch {Task Metrics} m.
Arguments Consume {Task Metrics} batch.

(** Where the thread running [_update_queues] stands, with its local
    variables [requested_tasks] and the rest of [new_tasks]. *)
Inductive thread (Task : Type) :=
  | NotStarted
  | AtWhile
  | Draining (requested_tasks : Z)
  | Dispatching (new_tasks : list Task)
  | Sleeping
  | Finished.
Arguments NotStarted {Task}.
Arguments AtWhile {Task}.
Arguments Draining {Task} requested_tasks.
Arguments Dispatching {Task} new_tasks.
Arguments Sleeping {Task}.
Arguments Finished {Task}.

(** The statement of [_update_queues] that the thread is about to
    execute, with its local variables: between two of them another thread
    or a worker can read or change what the wrapper shares.
    - [LWhile]: the test of [while self.should_update];
    - [LGet]: the test of the inner [while] and [self.update_queue.get()];
    - [LDecrement]: [self.queued_tasks -= requests], the batch taken and
      [requested_tasks] already increased;
    - [LBatchUpdate]: [self.batch_update_curriculum(batch_updates)];
    - [LSample]: [if requested_tasks > 0] and [self.curriculum.sample];
    - [LFor]: the head of [for task in new_tasks];
    - [LPut]: the message is built and [self.task_queue.put(message)];
    - [LIncrement]: [self.queued_tasks += 1];
    - [LReset]: [self.added_tasks = []];
    - [LSleep]: [time.sleep(0.0001)];
    - [LReturn]: the loop is left. *)
Inductive statement (Task Metrics : Type) :=
  | LWhile
  | LGet (requested_tasks : Z)
  | LDecrement (requested_tasks : Z) (batch_updates : list (update Metrics))
      (requests : Z)
  | LBatchUpdate (requested_tasks : Z) (batch_updates : list (update Metrics))
  | LSample (requested_tasks : Z)
  | LFor (new_tasks : list Task)
  | LPut (task : Task) (rest : list Task)
  | LIncrement (rest : list Task)
  | LReset (rest : list Task)
  | LSleep
  | LReturn.
Arguments LWhile {Task Metrics}.
Arguments LGet {Task Metrics} requested_tasks.
Arguments LDecrement {Task Metrics} requested_tasks batch_updates requests.
Arguments LBatchUpdate {Task Metrics} requested_tasks batch_updates.
Arguments LSample {Task Metrics} requested_tasks.
Arguments LFor {Task Metrics} new_tasks.
Arguments LPut {Task Metrics} task rest.
Arguments LIncrement {Task Metrics} rest.
Arguments LReset {Task Metrics} rest.
Arguments LSleep {Task Metrics}.
Arguments LReturn {Task Metrics}.

Section wrapper.
Context {C Task Metrics : Type} `{!Curriculum C Task Metrics}.

(** The wrapper object, the two queues it shares with the workers, its
    thread, and the log of its queue operations. *)
Record t := mk {
  curriculum : C;
  num_envs : Z;
  task_queue : list (message Task);
  update_queue : option (list (update_item Metrics));
  update_thread : thread Task;
  should_update : bool;
  queued_tasks : Z;
  added_tasks_buffer : list Task;
  trace : list (event Task Metrics);
}.

Definition __init__ (curriculum : C) (num_envs : Z)
    (task_queue : list (message Task))
    (update_queue : option (list (update_item Metrics))) : t :=
  mk curriculum num_envs task_queue update_queue NotStarted false 0 [] [].

(** [self.task_queue.put(message)]. *)
Definition put (self : t) (ev : message Task → event Task Metrics)
    (m : message Task) : t :=
  mk (curriculum self) (num_envs self) (task_queue self ++ [m])
     (update_queue self) (update_thread self) (should_update self)
     (queued_tasks self) (added_tasks_buffer self) (trace self ++ [ev m]).

(** [start()]. *)
Definition start (self : t) : t :=
  let '(initial_tasks, c) := sample (curriculum self) (num_envs self) in
  let self := mk c (num_envs self) (task_queue self) (update_queue self)
                 (update_thread self) true (queued_tasks self)
                 (added_tasks_buffer self) (trace self) in
  let self := foldl (fun self task => put self Seed (mk_message task None))
                    self initial_tasks in
  mk (curriculum self) (num_envs self) (task_queue self) (update_queue self)
     AtWhile (should_update self) (queued_tasks self)
     (added_tasks_buffer self) (trace self).

(** [stop()]. *)
Definition stop (self : t) : t :=
  mk (curriculum self) (num_envs self) (task_queue self) (update_queue self)
     (update_thread self) false (queued_tasks self)
     (added_tasks_buffer self) (trace self).

(** [if isinstance(batch_updates, dict): batch_updates = [batch_updates]]. *)
Definition as_batch (item : update_item Metrics) : list (update Metrics) :=
  match item with
  | OneUpdate u => [u]
  | UpdateList l => l
  end.

(** [sum([result["request_sample"] for result in batch_updates
          if "request_sample" in result])]: [True] adds one. *)
Definition requests_of (batch_updates : list (update Metrics)) : Z :=
  foldr (fun (flag : bool) acc => (if flag then 1 else 0) + acc) 0
        (omap request_sample batch_updates).

(** One turn of the inner [while]: an item is taken from the update queue
    [q], counted and handed to the curriculum. *)
Definition consume (self : t) (requested_tasks : Z)
    (item : update_item Metrics) (q : list (update_item Metrics)) : t :=
  let batch_updates := as_batch item in
  let requests := requests_of batch_updates in
  mk (batch_update_curriculum (curriculum self) batch_updates)
     (num_envs self) (task_queue self) (Some q)
     (Draining (requested_tasks + requests)) (should_update self)
     (queued_tasks self - requests) (added_tasks_buffer self)
     (trace self ++ [Consume batch_updates]).

(** One turn of the [for task in new_tasks] loop. *)
Definition dispatch (self : t) (task : Task) (rest : list Task) : t :=
  let message := mk_message task (Some (added_tasks_buffer self)) in
  let self := put self Dispatch message in
  mk (curriculum self) (num_envs self) (task_queue self) (update_queue self)
     (Dispatching rest) (should_update self) (queued_tasks self + 1) []
     (trace self).

Definition goto (self : t) (th : thread Task) : t :=
  mk (curriculum self) (num_envs self) (task_queue self) (update_queue self)
     th (should_update self) (queued_tasks self) (added_tasks_buffer self)
     (trace self).

(** One turn of the thread that runs [_update_queues]: of the outer
    [while], of the inner [while] or of the [for], each taken as a whole.
    [statement_step] below splits the turns into their statements. *)
Definition _update_queues (self : t) : t :=
  match update_thread self with
  | NotStarted | Finished => self
  | AtWhile => if should_update self then goto self (Draining 0) else goto self Finished
  | Draining requested_tasks =>
      match update_queue self with
      | Some (item :: q) => consume self requested_tasks item q
      | Some [] | None =>
          if decide (requested_tasks > 0) then
            let '(new_tasks, c) := sample (curriculum self) requested_tasks in
            mk c (num_envs self) (task_queue self) (update_queue self)
               (Dispatching new_tasks) (should_update self) (queued_tasks self)
               (added_tasks_buffer self) (trace self)
          else goto self Sleeping
      end
  | Dispatching (task :: rest) => dispatch self task rest
  | Dispatching [] => goto self Sleeping
  | Sleeping => goto self AtWhile
  end.

(** [add_task(task)], called by the owner of the wrapper. *)
Definition add_task (self : t) (task : Task) : t :=
  mk (Curriculum.add_task (curriculum self) task) (num_envs self)
     (task_queue self) (update_queue self) (update_thread self)
     (should_update self) (queued_tasks self) (added_tasks_buffer self ++ [task])
     (trace self).

(** The gauge ["curriculum/task_queue_length"] that [log_metrics] writes. *)
Definition log_metrics (self : t) : Z := queued_tasks self.

(** What happens between two steps of the thread: a worker puts an update
    or takes an assignment, the owner adds a task or stops the wrapper. *)
Inductive env_step : t → t → Prop :=
  | worker_put self q item :
      update_queue self = Some q →
      env_step self
        (mk (curriculum self) (num_envs self) (task_queue self)
            (Some (q ++ [item])) (update_thread self) (should_update self)
            (queued_tasks self) (added_tasks_buffer self) (trace self))
  | worker_get self m q :
      task_queue self = m :: q →
      env_step self
        (mk (curriculum self) (num_envs self) q (update_queue self)
            (update_thread self) (should_update self) (queued_tasks self)
            (added_tasks_buffer self) (trace self))
  | owner_add_task self task : env_step self (add_task self task)
  | owner_stop self : env_step self (stop self).

Inductive step : t → t → Prop :=
  | thread_step self : step self (_update_queues self)
  | other_step self self' : env_step self self' → step self self'.

(** The states of a wrapper that was constructed and started, seen when
    its thread stands between two turns. What the other threads can see
    inside a turn is in [running_reachable]. *)
Inductive reachable : t → Prop :=
  | reachable_start c n tq uq : reachable (start (__init__ c n tq uq))
  | reachable_step self self' : reachable self → step self self' → reachable self'.

(** *** The quantities of the credit invariant *)

(** Assignment messages dispatched by the loop; seeds are not counted. *)
Fixpoint dispatched (tr : list (event Task Metrics)) : Z :=
  match tr with
  | [] => 0
  | Dispatch _ :: tr' => 1 + dispatched tr'
  | _ :: tr' => dispatched tr'
  end.

(** The entries of a batch whose flag is present and true. *)
Fixpoint resample_count (batch : list (update Metrics)) : Z :=
  match batch with
  | [] => 0
  | u :: batch' =>
      match request_sample u with
      | Some true => 1 + resample_count batch'
      | Some false | None => resample_count batch'
      end
  end.

(** Consumed update entries whose flag is true. *)
Fixpoint consumed_requests (tr : list (event Task Metrics)) : Z :=
  match tr with
  | [] => 0
  | Consume batch :: tr' => resample_count batch + consumed_requests tr'
  | _ :: tr' => consumed_requests tr'
  end.

(** The contract of [sample(k)]: [k] tasks are returned. *)
Definition sample_returns_k : Prop :=
  ∀ (c : C) (k : Z), 0 <= k → length (sample c k).1 = Z.to_nat k.

(** *** The loop, statement by statement *)

(** The wrapper and the statement at which its thread stands. *)
Record running := mk_running {
  wrapper : t;
  line : statement Task Metrics;
}.

Definition set_curriculum (self : t) (c : C) : t :=
  mk c (num_envs self) (task_queue self) (update_queue self) (update_thread self)
     (should_update self) (queued_tasks self) (added_tasks_buffer self) (trace self).

Definition set_queued_tasks (self : t) (n : Z) : t :=
  mk (curriculum self) (num_envs self) (task_queue self) (update_queue self)
     (update_thread self) (should_update self) n (added_tasks_buffer self)
     (trace self).

Definition set_added_tasks (self : t) (buffer : list Task) : t :=
  mk (curriculum self) (num_envs self) (task_queue self) (update_queue self)
     (update_thread self) (should_update self) (queued_tasks self) buffer
     (trace self).

(** [self.update_queue.get()] has returned [batch_updates] and left [q]. *)
Definition got (self : t) (q : list (update_item Metrics))
    (batch_updates : list (update Metrics)) : t :=
  mk (curriculum self) (num_envs self) (task_queue self) (Some q)
     (update_thread self) (should_update self) (queued_tasks self)
     (added_tasks_buffer self) (trace self ++ [Consume batch_updates]).

(** One statement of the thread. The message of [LPut] holds the list
    that [self.added_tasks] is bound to, as that list is when the message
    is put. *)
Definition statement_step (s : running) : running :=
  let self := wrapper s in
  match line s with
  | LWhile =>
      if should_update self then mk_running self (LGet 0)
      else mk_running self LReturn
  | LGet requested_tasks =>
      match update_queue self with
      | Some (item :: q) =>
          let batch_updates := as_batch item in
          let requests := requests_of batch_updates in
          mk_running (got self q batch_updates)
            (LDecrement (requested_tasks + requests) batch_updates requests)
      | Some [] | None => mk_running self (LSample requested_tasks)
      end
  | LDecrement requested_tasks batch_updates requests =>
      mk_running (set_queued_tasks self (queued_tasks self - requests))
        (LBatchUpdate requested_tasks batch_updates)
  | LBatchUpdate requested_tasks batch_updates =>
      mk_running
        (set_curriculum self (batch_update_curriculum (curriculum self) batch_updates))
        (LGet requested_tasks)
  | LSample requested_tasks =>
      if decide (requested_tasks > 0) then
        let '(new_tasks, c) := sample (curriculum self) requested_tasks in
        mk_running (set_curriculum self c) (LFor new_tasks)
      else mk_running self LSleep
  | LFor (task :: rest) => mk_running self (LPut task rest)
  | LFor [] => mk_running self LSleep
  | LPut task rest =>
      mk_running
        (put self Dispatch (mk_message task (Some (added_tasks_buffer self))))
        (LIncrement rest)
  | LIncrement rest =>
      mk_running (set_queued_tasks self (queued_tasks self + 1)) (LReset rest)
  | LReset rest => mk_running (set_added_tasks self []) (LFor rest)
  | LSleep => mk_running self LWhile
  | LReturn => s
  end.

(** A statement of the thread, or a step of a worker or of the owner. *)
Inductive running_step : running → running → Prop :=
  | thread_statement s : running_step s (statement_step s)
  | other_statement s self' :
      env_step (wrapper s) self' → running_step s (mk_running self' (line s)).

(** The states of a wrapper that was constructed and started, statement
    by statement. *)
Inductive running_reachable : running → Prop :=
  | running_start c n tq uq :
      running_reachable (mk_running (start (__init__ c n tq uq)) LWhile)
  | running_next s s' : running_reachable s → running_step s s' → running_reachable s'.




(** The statement at which a thread stands that is at a turn of its
    loops. *)
Definition line_of (th : thread Task) : statement Task Metrics :=
  match th with
  | NotStarted | Finished => LReturn
  | AtWhile => LWhile
  | Draining requested_tasks => LGet requested_tasks
  | Dispatching new_tasks => LFor new_tasks
  | Sleeping => LSleep
  end.

Definition statements_of (self : t) : running :=
  mk_running (goto self AtWhile) (line_of (update_thread self)).

(** The messages of one [for task in new_tasks] loop that starts with the
    buffer [buffer]: the first one carries the buffer, the others an empty
    list. *)
Definition dispatch_messages (buffer : list Task) (new_tasks : list Task)
    : list (message Task) :=
  match new_tasks with
  | [] => []
  | task :: rest =>
      mk_message task (Some buffer)
      :: ((fun task => mk_message task (Some [])) <$> rest)
  end.

(** The requests among the items [q] of the update queue. *)
Definition drained_requests (q : list (update_item Metrics)) : Z :=
  foldr (fun item acc => resample_count (as_batch item) + acc) 0 q.

(** The curriculum once the items [q] have been applied to it. *)
Definition drained_curriculum (c : C) (q : list (update_item Metrics)) : C :=
  foldl (fun c item => batch_update_curriculum c (as_batch item)) c q.

(** [make_multiprocessing_curriculum(curriculum, num_envs)]: the wrapper,
    started on two new queues, and the queues. *)
Definition make_multiprocessing_curriculum (curriculum : C) (num_envs : Z)
    : t * list (message Task) * option (list (update_item Metrics)) :=
  let mp_curriculum := start (__init__ curriculum num_envs [] (Some [])) in
  (mp_curriculum, task_queue mp_curriculum, update_queue mp_curriculum).

End wrapper.

Arguments t C Task Metrics : clear implicits.

End MultiProcessingCurriculumWrapper.

(** ** The actor synchronisation wrapper *)

Module RayCurriculumWrapper.

Inductive class :=
  | CurriculumWrapper
  | RayCurriculumWrapper.

(** Function objects: the one a [def name] in the body of a class creates,
    and the [wrapper] that [remote_call(func)] returns. *)
Inductive function :=
  | Def (cls : class) (name : string)
  | Wrapper (func : function).

(** The result of an attribute lookup: on a class a function comes back as
    it is, on an instance it comes back bound to the instance. *)
Inductive attribute :=
  | Function (f : function)
  | BoundMethod (self : nat) (f : function).

Global Instance class_eq_dec : EqDecision class.
Proof. solve_decision. Defined.
Global Instance function_eq_dec : EqDecision function.
Proof. solve_decision. Defined.

(** [a == b]: two functions are equal when they are the same object, two
    bound methods when they bind the same function to the same instance;
    a bound method never equals a function. *)
Definition py_eq (a b : attribute) : bool :=
  match a, b with
  | Function f, Function g => bool_decide (f = g)
  | BoundMethod s f, BoundMethod s' g => bool_decide (s = s') && bool_decide (f = g)
  | _, _ => false
  end.

(** [func.__name__]; [functools.wraps] gives the wrapper the name of the
    function it wraps. *)
Fixpoint __name__ (func : function) : string :=
  match func with
  | Def _ name => name
  | Wrapper func => __name__ func
  end.

(** The methods defined in the body of [CurriculumWrapper] that call the
    curriculum, and those that call the local task space. *)
Definition curriculum_methods : list string :=
  ["sample"; "complete_task"; "_on_step"; "log_metrics"; "_on_step_batch";
   "update_curriculum"; "batch_update_curriculum"; "add_task"].

Definition task_space_methods : list string := ["count_tasks"; "get_tasks"].

Definition base_methods : list string :=
  "__init__" :: curriculum_methods ++ task_space_methods.

(** The methods defined in the body of [RayCurriculumWrapper]. *)
Definition overridden : list string :=
  ["__init__"; "sample"; "_on_step_batch"; "add_task"].

(** What a call does to the curriculum actor. *)
Inductive outcome (Args : Type) :=
  | RemoteCall (name : string) (args : Args)
      (* [ray.get(self.curriculum.name.remote( *args, **kw))]: blocks and
         returns the result of the actor *)
  | DirectCall (name : string) (args : Args)
      (* [self.curriculum.name(...)], without [.remote] *)
  | TaskSpaceCall (name : string) (args : Args)
      (* [self.task_space.name(...)], in the process of the caller *)
  | Construct
      (* the body of [__init__] *)
  | ReturnNone
      (* the function returns without calling anything *)
  | NoAttribute.
      (* [AttributeError] *)
Arguments RemoteCall {Args} name args.
Arguments DirectCall {Args} name args.
Arguments TaskSpaceCall {Args} name args.
Arguments Construct {Args}.
Arguments ReturnNone {Args}.
Arguments NoAttribute {Args}.

Section wrapper.
Context {Args : Type}.

(** [decorate_all_functions] comes from another module of
    [syllabus.core]: the names whose attribute of the class it replaces by
    [remote_call(obj)] are a parameter. *)
Variable decorated : string → bool.

(** [getattr(CurriculumWrapper, name)]. *)
Definition getattr_base (name : string) : option attribute :=
  if decide (name ∈ base_methods) then Some (Function (Def CurriculumWrapper name))
  else None.

(** The attribute [name] of the class [RayCurriculumWrapper] as its body
    and its base class define it. *)
Definition class_body_lookup (name : string) : option function :=
  if decide (name ∈ overridden) then Some (Def RayCurriculumWrapper name)
  else if decide (name ∈ base_methods) then Some (Def CurriculumWrapper name)
  else None.

(** The same once the class decorator has run. *)
Definition class_lookup (name : string) : option function :=
  if decorated name then Wrapper <$> class_body_lookup name
  else class_body_lookup name.

(** [getattr(self, name)]. *)
Definition getattr (self : nat) (name : string) : option attribute :=
  BoundMethod self <$> class_lookup name.

(** The body of the [wrapper] of [remote_call(func)]. *)
Definition wrapper (func : function) (self : nat) (args : Args) : outcome Args :=
  let f_name := __name__ func in
  match getattr_base f_name with
  | None => NoAttribute
  | Some parent_func =>
      match getattr self f_name with
      | None => NoAttribute
      | Some child_func =>
          (* Only forward call if subclass does not explicitly override the function. *)
          if py_eq child_func parent_func then RemoteCall f_name args
          else ReturnNone
      end
  end.

(** The body of a method of [CurriculumWrapper]. *)
Definition base_body (name : string) (args : Args) : outcome Args :=
  if decide (name ∈ curriculum_methods) then DirectCall name args
  else if decide (name ∈ task_space_methods) then TaskSpaceCall name args
  else Construct.

(** The body of a method of [RayCurriculumWrapper]: [sample] and
    [_on_step_batch] call the actor, [add_task] calls
    [super().add_task(task)] before it fills the local buffer. *)
Definition override_body (name : string) (args : Args) : outcome Args :=
  if decide (name = "sample") then RemoteCall name args
  else if decide (name = "_on_step_batch") then RemoteCall name args
  else if decide (name = "add_task") then base_body name args
  else Construct.

Definition call_function (f : function) (self : nat) (args : Args) : outcome Args :=
  match f with
  | Def CurriculumWrapper name => base_body name args
  | Def RayCurriculumWrapper name => override_body name args
  | Wrapper func => wrapper func self args
  end.

(** [self.name( *args, **kw)] on an instance of [RayCurriculumWrapper]. *)
Definition call (self : nat) (name : string) (args : Args) : outcome Args :=
  match class_lookup name with
  | None => NoAttribute
  | Some f => call_function f self args
  end.

End wrapper.

End RayCurriculumWrapper.

(** ** Concrete runtimes and curricula *)

Module Examples.
Import TaskSpace Curriculum.

(** [space.contains(np.asarray(x, dtype=space.dtype))] for a string that
    is no numeral, for an [int] and for [None]: the string does not
    convert ([ValueError]); a scalar has not the shape of a Box with axes,
    and is not contained. The examples use no other space. *)
Definition string_np_contains (space : Space) (x : pyval string) : result bool :=
  match x with
  | PyObj _ => Raise ValueError
  | PyInt _ | PyNone => Ret false
  end.

(** Tasks that are strings, none of them a numeral. A string equals no
    [int], has a length and is not [None]; the hashes of strings change
    from one process to the next, and insertion order, one of the orders
    that CPython gives, stands for the order of a set of them. *)
Definition string_runtime : PyRuntime string := {|
  set_iter := fun s => s;
  np_contains := string_np_contains;
  int_key := fun _ => None;
  task_len := fun t => Some (Z.of_nat (String.length t));
  is_none := fun _ => false;
|}.

(** Tasks that are [None] or a string: [None] is [None], and the rest is
    as for strings. *)
Definition optional_string_runtime : PyRuntime (option string) := {|
  set_iter := fun s => s;
  np_contains := fun space x =>
    match x with
    | PyObj (Some _) => Raise ValueError
    | PyObj None => match space with Discrete _ => Raise TypeError | _ => Ret false end
    | PyInt _ | PyNone => Ret false
    end;
  int_key := fun _ => None;
  task_len := fun t => (fun s => Z.of_nat (String.length s)) <$> t;
  is_none := fun t => bool_decide (t = None);
|}.

(** The hash table of a CPython set that has at most four elements: eight
    slots, each free or holding a key. *)
Definition set_slots : Type := list (option Z).

(** [set_add_entry] for a small non-negative [int], which is its own
    hash: the key goes to the first free slot of the probe sequence that
    starts at [hash & 7] and goes on with [i = (i * 5 + 1 + perturb) & 7],
    [perturb] being shifted right by five bits at each turn; a table of
    eight slots has no linear probes. *)
Fixpoint set_add_entry (fuel : nat) (table : set_slots) (i perturb key : Z)
    : set_slots :=
  match fuel with
  | O => table
  | S fuel' =>
      match table !! Z.to_nat i with
      | Some None => <[Z.to_nat i := Some key]> table
      | Some (Some k) =>
          if decide (k = key) then table
          else
            let perturb := Z.shiftr perturb 5 in
            set_add_entry fuel' table (Z.land (i * 5 + 1 + perturb) 7) perturb key
      | None => table
      end
  end.

(** Iteration over a CPython set of at most four small non-negative
    integers, inserted in the order [s]: the slots in ascending order. *)
Definition small_int_set_iter (s : list Z) : list Z :=
  omap id
    (foldl (fun table key => set_add_entry 64 table (Z.land key 7) key key)
           (replicate 8 None) s).

(** Tasks that are small integers. As an encoding such a task is the
    [int] it is; the examples use Discrete spaces only. *)
Definition small_int_runtime : PyRuntime Z := {|
  set_iter := small_int_set_iter;
  np_contains := fun space x =>
    match space, x with
    | Discrete n, PyObj i =>
        if in_int64 i then Ret ((0 <=? i) && (i <? n)) else Raise OverflowError
    | _, _ => Ret false
    end;
  int_key := fun t => Some t;
  task_len := fun _ => None;
  is_none := fun _ => false;
|}.

(** A curriculum that hands out the tasks [c], [c + 1], ... in turn and
    ignores what it is told. *)
Definition counting_curriculum : Curriculum Z Z unit := {|
  sample := fun c k => ((fun i => c + Z.of_nat i) <$> seq 0 (Z.to_nat k), c + k);
  batch_update_curriculum := fun c _ => c;
  Curriculum.add_task := fun c _ => c;
|}.

#[local] Existing Instance counting_curriculum.

(** A wrapper over [counting_curriculum] for two workers, started on two
    fresh queues. *)
Definition started : MultiProcessingCurriculumWrapper.t Z Z unit :=
  MultiProcessingCurriculumWrapper.start
    (MultiProcessingCurriculumWrapper.__init__ 0 2 [] (Some [])).

(** A worker has put the update [{"request_sample": True}]. *)
Definition update_posted : MultiProcessingCurriculumWrapper.t Z Z unit :=
  MultiProcessingCurriculumWrapper.mk 2 2
    (MultiProcessingCurriculumWrapper.task_queue started)
    (Some [MultiProcessingCurriculumWrapper.OneUpdate (mk_update tt (Some true))])
    MultiProcessingCurriculumWrapper.AtWhile true 0 []
    (MultiProcessingCurriculumWrapper.trace started).

(** The thread has entered its loop and taken the update from the queue;
    it has not sampled yet. *)
Definition update_drained : MultiProcessingCurriculumWrapper.t Z Z unit :=
  MultiProcessingCurriculumWrapper._update_queues
    (MultiProcessingCurriculumWrapper._update_queues update_posted).

(** The thread has sampled the replacement and stands in its [for]
    loop. *)
Definition replacement_sampled : MultiProcessingCurriculumWrapper.t Z Z unit :=
  Nat.iter 3 MultiProcessingCurriculumWrapper._update_queues update_posted.


(** The thread has taken the update and subtracted its request; it is
    about to hand the batch to the curriculum. *)
Definition request_subtracted : @MultiProcessingCurriculumWrapper.running Z Z unit :=
  Nat.iter 3 MultiProcessingCurriculumWrapper.statement_step
    (MultiProcessingCurriculumWrapper.statements_of update_posted).

(** The thread has put the replacement on the task queue and not yet
    added one to the counter. *)
Definition replacement_put : @MultiProcessingCurriculumWrapper.running Z Z unit :=
  Nat.iter 2 MultiProcessingCurriculumWrapper.statement_step
    (MultiProcessingCurriculumWrapper.statements_of replacement_sampled).

(** A curriculum that keeps the batches it is given, in order, and
    samples task 0. *)
Definition recording_curriculum
    : Curriculum (list (list (update unit))) Z unit := {|
  sample := fun c k => (replicate (Z.to_nat k) 0, c);
  batch_update_curriculum := fun c batch => c ++ [batch];
  Curriculum.add_task := fun c _ => c;
|}.

#[local] Existing Instance recording_curriculum.

(** Three update entries: one that asks for a task, one without the key
    [request_sample], one that has it false. *)
Definition asking : update unit := mk_update tt (Some true).
Definition silent : update unit := mk_update tt None.
Definition declining : update unit := mk_update tt (Some false).

(** The thread of a wrapper over [recording_curriculum] is about to drain
    an update queue that holds a list of two entries and a single entry. *)
Definition two_items_queued
    : MultiProcessingCurriculumWrapper.t (list (list (update unit))) Z unit :=
  MultiProcessingCurriculumWrapper.mk [] 2 []
    (Some [MultiProcessingCurriculumWrapper.UpdateList [asking; silent];
           MultiProcessingCurriculumWrapper.OneUpdate declining])
    (MultiProcessingCurriculumWrapper.Draining 0) true 0 [] [].

End Examples.

(** * Properties of the task space *)

#[local] Existing Instance Examples.string_runtime.
#[local] Existing Instance Examples.optional_string_runtime.
#[local] Existing Instance Examples.small_int_runtime.
#[local] Existing Instance Examples.counting_curriculum.
#[local] Existing Instance Examples.recording_curriculum.

Section task_space_properties.
Import TaskSpace.
Context {Task : Type} `{Countable Task} `{!PyRuntime Task}.
Implicit Types (l tasks : list Task) (t task : Task) (self : TaskSpace.t Task).

(** *** Sets *)

Lemma elem_of_set_add t t' (s : list Task) : t ∈ set_add t' s ↔ t ∈ s ∨ t = t'.
Proof.
  unfold set_add. case_decide as Hin.
  - split; [by left | intros [? | ->]; done].
  - rewrite elem_of_app, list_elem_of_singleton. done.
Qed.

Lemma elem_of_foldl_set_add t l : ∀ acc : list Task,
  t ∈ foldl (fun s x => set_add x s) acc l ↔ t ∈ acc ∨ t ∈ l.
Proof.
  induction l as [| x l IH]; intros acc; simpl.
  - rewrite elem_of_nil. tauto.
  - rewrite IH, elem_of_set_add, elem_of_cons. tauto.
Qed.

Lemma elem_of_set_of_list t l : t ∈ set_of_list l ↔ t ∈ l.
Proof.
  unfold set_of_list. rewrite elem_of_foldl_set_add, elem_of_nil. tauto.
Qed.

Lemma foldl_set_add_NoDup l : ∀ acc : list Task,
  NoDup (acc ++ l) → foldl (fun s x => set_add x s) acc l = acc ++ l.
Proof.
  induction l as [| x l IH]; intros acc Hnd; simpl.
  - by rewrite app_nil_r.
  - assert (Hx : x ∉ acc).
    { apply NoDup_app in Hnd as (_ & Hdisj & _). intros Hin.
      apply (Hdisj x Hin), list_elem_of_here. }
    unfold set_add at 2. rewrite decide_False by done.
    rewrite IH; rewrite <- app_assoc; done.
Qed.

(** The set of a list without repetition holds its elements in the order
    of the list. *)
Lemma set_of_list_NoDup l : NoDup l → set_of_list l = l.
Proof. intros Hnd. unfold set_of_list. by rewrite foldl_set_add_NoDup. Qed.

(** *** The two dictionary comprehensions *)

Lemma encode_fold_notin l : ∀ start (m : gmap Task Z) t,
  t ∉ l →
  foldl (fun m p => <[p.2 := p.1]> m) m (enumerate_from start l) !! t = m !! t.
Proof.
  induction l as [| x l IH]; intros start m t Hnot; simpl; [done |].
  apply not_elem_of_cons in Hnot as [Hne Hnot].
  rewrite IH by done. by rewrite lookup_insert_ne.
Qed.

(** A task of the list is mapped to an index at which it stands. *)
Lemma encode_fold_in l : ∀ start (m : gmap Task Z) t,
  t ∈ l →
  ∃ i : nat, l !! i = Some t ∧
    foldl (fun m p => <[p.2 := p.1]> m) m (enumerate_from start l) !! t
    = Some (start + Z.of_nat i).
Proof.
  induction l as [| x l IH]; intros start m t Hin; simpl.
  - by apply elem_of_nil in Hin.
  - destruct (decide (t ∈ l)) as [Hl | Hl].
    + destruct (IH (start + 1) (<[x := start]> m) t Hl) as (i & Hi & Hlk).
      exists (S i). split; [done |]. rewrite Hlk. f_equal. lia.
    + apply elem_of_cons in Hin as [-> | Hin]; [| done].
      exists 0%nat. split; [done |].
      rewrite encode_fold_notin by done. rewrite lookup_insert_eq. f_equal. lia.
Qed.

Lemma decode_fold_outside l : ∀ start (m : gmap Z Task) (j : Z),
  j < start ∨ start + Z.of_nat (length l) <= j →
  foldl (fun m p => <[p.1 := p.2]> m) m (enumerate_from start l) !! j = m !! j.
Proof.
  induction l as [| x l IH]; intros start m j Hj; simpl; [done |].
  simpl in Hj. rewrite IH by lia. rewrite lookup_insert_ne; [done | lia].
Qed.

Lemma decode_fold_in l : ∀ start (m : gmap Z Task) (i : nat) t,
  l !! i = Some t →
  foldl (fun m p => <[p.1 := p.2]> m) m (enumerate_from start l)
    !! (start + Z.of_nat i) = Some t.
Proof.
  induction l as [| x l IH]; intros start m i t Hi; simpl; [done |].
  destruct i as [| i]; simpl in Hi.
  - injection Hi as ->. rewrite decode_fold_outside by lia.
    replace (start + Z.of_nat 0) with start by lia. apply lookup_insert_eq.
  - replace (start + Z.of_nat (S i)) with (start + 1 + Z.of_nat i) by lia.
    by apply IH.
Qed.

Lemma make_encode_map_in tasks t :
  t ∈ tasks →
  ∃ i : nat, tasks !! i = Some t ∧ make_encode_map tasks !! t = Some (Z.of_nat i).
Proof.
  intros Hin. destruct (encode_fold_in tasks 0 ∅ t Hin) as (i & Hi & Hlk).
  exists i. split; [done |]. unfold make_encode_map, enumerate. by rewrite Hlk.
Qed.

Lemma make_encode_map_notin tasks t : t ∉ tasks → make_encode_map tasks !! t = None.
Proof.
  intros Hnot. unfold make_encode_map, enumerate.
  by rewrite encode_fold_notin.
Qed.

Lemma make_decode_map_lookup tasks (i : nat) :
  make_decode_map tasks !! Z.of_nat i = tasks !! i.
Proof.
  unfold make_decode_map, enumerate.
  destruct (tasks !! i) as [t |] eqn:Hi.
  - by rewrite <- (decode_fold_in tasks 0 ∅ i t Hi).
  - apply lookup_ge_None in Hi. rewrite decode_fold_outside; [done | lia].
Qed.

(** *** Construction, encoding and decoding over a Discrete space *)

Lemma init_Discrete tasks :
  __init__ (Discrete (Z.of_nat (length tasks))) tasks
  = Ret (mk (Some (Discrete (Z.of_nat (length tasks)))) MapLookup MapLookup
            (make_encode_map tasks) (make_decode_map tasks) (set_of_list tasks)).
Proof.
  unfold __init__, _make_task_encoder. simpl. by rewrite decide_True.
Qed.

(** The constructor refuses a list whose length is not the size of the
    space. *)
Lemma init_Discrete_length_mismatch tasks (n : Z) :
  n ≠ Z.of_nat (length tasks) → __init__ (Discrete n) tasks = Raise AssertionError.
Proof.
  intros Hn. unfold __init__, _make_task_encoder. simpl. by rewrite decide_False.
Qed.

Lemma decode_Discrete_inside self (n i : Z) :
  gym_space self = Some (Discrete n) → _decoder self = MapLookup →
  0 <= i < n → n <= int64_max + 1 →
  decode self (PyInt i)
  = match _decode_map self !! i with
    | Some task => Ret (PyObj task)
    | None => Raise KeyError
    end.
Proof.
  intros Hsp Hdec Hi Hn. unfold decode, contains_asarray. rewrite Hsp.
  assert (in_int64 i = true) as ->.
  { unfold in_int64, int64_min, int64_max in *.
    apply andb_true_intro. split; apply Z.leb_le; lia. }
  assert ((0 <=? i) && (i <? n) = true) as ->.
  { apply andb_true_intro. split; [apply Z.leb_le | apply Z.ltb_lt]; lia. }
  simpl. unfold call_decoder, decode_map_getitem. rewrite Hdec. done.
Qed.

(** An integer that fits [np.int64] and lies outside [0, n) decodes to
    [None]. *)
Lemma decode_Discrete_outside self (n i : Z) :
  gym_space self = Some (Discrete n) → in_int64 i = true → ¬ (0 <= i < n) →
  decode self (PyInt i) = Ret PyNone.
Proof.
  intros Hsp Hfit Hi. unfold decode, contains_asarray. rewrite Hsp, Hfit.
  assert ((0 <=? i) && (i <? n) = false) as ->; [| done].
  apply andb_false_iff.
  destruct (Z.leb_spec 0 i); [right; apply Z.ltb_ge; lia | by left].
Qed.

Lemma encode_never_raises self task : ∃ v, encode self task = Ret v.
Proof.
  unfold encode, try_except_none. destruct (call_encoder self task); eauto.
Qed.

(** A task that the encode map does not hold is encoded as [None]. *)
Lemma encode_unknown self task :
  _encoder self = MapLookup → _encode_map self !! task = None →
  encode self task = Ret PyNone.
Proof.
  intros He Hm. unfold encode, call_encoder. by rewrite He, Hm.
Qed.

Lemma encode_known self task (i : Z) :
  _encoder self = MapLookup → _encode_map self !! task = Some i →
  encode self task = Ret (PyInt i).
Proof.
  intros He Hm. unfold encode, call_encoder. by rewrite He, Hm.
Qed.

(** *** Counting *)

Lemma wrap_int64_fits (x : Z) : int64_min <= x <= int64_max → wrap_int64 x = x.
Proof.
  unfold wrap_int64, int64_min, int64_max. intros Hx.
  rewrite Z.mod_small; lia.
Qed.

Lemma count_tasks_Discrete self (n : Z) :
  count_tasks self (Some (Discrete n)) = Ret (Some n).
Proof. done. Qed.

Lemma count_tasks_default self : count_tasks self None = count_tasks self (gym_space self).
Proof. unfold count_tasks. by destruct (gym_space self). Qed.

(** Axis sizes [[a, b]]: the product, computed in [np.int64]. *)
Lemma count_tasks_MultiDiscrete self (a b : Z) :
  count_tasks self (Some (MultiDiscrete (Axes [Size a; Size b])))
  = Ret (Some (wrap_int64 (a * b))).
Proof.
  unfold count_tasks. simpl. unfold np_prod. simpl.
  by rewrite Z.mul_1_r.
Qed.

Lemma count_tasks_MultiBinary self (a b : Z) :
  count_tasks self (Some (MultiBinary (Axes [Size a; Size b])))
  = Ret (Some (wrap_int64 (a * b))).
Proof.
  unfold count_tasks. simpl. unfold np_prod. simpl.
  by rewrite Z.mul_1_r.
Qed.

(** *** Growing the space *)

Lemma increase_space_Discrete_int self (n a : Z) :
  gym_space self = Some (Discrete n) →
  increase_space self (AInt a) = Ret (Some (Discrete (n + a))).
Proof. intros Hsp. unfold increase_space. by rewrite Hsp. Qed.

(** A non-integer amount on a Discrete space fails the assertion. *)
Lemma increase_space_Discrete_float self (n : Z) :
  gym_space self = Some (Discrete n) →
  increase_space self AFloat = Raise AssertionError.
Proof. intros Hsp. unfold increase_space. by rewrite Hsp. Qed.

(** A new task on a Discrete space whose size is the number of known
    tasks: the call returns, the task is known and [num_tasks] is one
    more. *)
Lemma add_task_new_num_tasks self (n : Z) task :
  gym_space self = Some (Discrete n) →
  n = Z.of_nat (length (_tasks self)) →
  task ∉ _tasks self →
  ∃ self', add_task self task = (Ret tt, self')
    ∧ _tasks self' = _tasks self ++ [task]
    ∧ num_tasks self = Ret (Some n)
    ∧ num_tasks self' = Ret (Some (n + 1)).
Proof.
  intros Hsp Hn Hnew. unfold add_task. rewrite decide_False by done.
  unfold increase_space, set_add. simpl. rewrite Hsp, decide_False by done.
  simpl. rewrite decide_True.
  - eexists. split; [reflexivity |]. simpl.
    unfold num_tasks, count_tasks. rewrite Hsp. done.
  - rewrite length_app. simpl. lia.
Qed.

End task_space_properties.

Section task_space_claims.
Import TaskSpace.
Context {Task : Type} `{Countable Task} `{!PyRuntime Task}.
Implicit Types (l tasks : list Task) (t task : Task) (self : TaskSpace.t Task).

(** A registered task is encoded as an index that decodes to it, whether
    or not the list of the constructor repeats tasks. *)
Lemma decode_encode_registered tasks t :
  Z.of_nat (length tasks) <= int64_max →
  t ∈ tasks →
  ∃ self (i : Z),
    __init__ (Discrete (Z.of_nat (length tasks))) tasks = Ret self
    ∧ encode self t = Ret (PyInt i)
    ∧ decode self (PyInt i) = Ret (PyObj t).
Proof.
  intros Hlen Hin. rewrite init_Discrete.
  destruct (make_encode_map_in tasks t Hin) as (i & Hi & Hm).
  eexists _, (Z.of_nat i). split; [reflexivity |]. split.
  - by apply encode_known.
  - rewrite (decode_Discrete_inside _ (Z.of_nat (length tasks))); simpl; try done.
    + by rewrite make_decode_map_lookup, Hi.
    + apply lookup_lt_Some in Hi. lia.
    + lia.
Qed.

(** The same for any object whose maps were built from a sequence [l] of
    as many tasks as the space has indices. *)
Lemma maps_roundtrip self l t :
  gym_space self = Some (Discrete (Z.of_nat (length l))) →
  Z.of_nat (length l) <= int64_max →
  _encoder self = MapLookup → _decoder self = MapLookup →
  _encode_map self = make_encode_map l → _decode_map self = make_decode_map l →
  t ∈ l →
  ∃ i : Z, encode self t = Ret (PyInt i) ∧ decode self (PyInt i) = Ret (PyObj t).
Proof.
  intros Hsp Hlen He Hd Hem Hdm Hin.
  destruct (make_encode_map_in l t Hin) as (i & Hi & Hm).
  exists (Z.of_nat i). split.
  - apply encode_known; [done |]. by rewrite Hem.
  - rewrite (decode_Discrete_inside _ (Z.of_nat (length l))); try done.
    + by rewrite Hdm, make_decode_map_lookup, Hi.
    + apply lookup_lt_Some in Hi. lia.
    + lia.
Qed.

(** A new task added to a space constructed from distinct tasks: the call
    returns and [num_tasks] grows from [n] to [n + 1]. *)
Lemma add_task_after_init tasks task :
  NoDup tasks → task ∉ tasks →
  ∃ self self',
    __init__ (Discrete (Z.of_nat (length tasks))) tasks = Ret self
    ∧ add_task self task = (Ret tt, self')
    ∧ num_tasks self = Ret (Some (Z.of_nat (length tasks)))
    ∧ num_tasks self' = Ret (Some (Z.of_nat (length tasks) + 1)).
Proof.
  intros Hnd Hnew. rewrite init_Discrete. eexists.
  edestruct (add_task_new_num_tasks
               (mk (Some (Discrete (Z.of_nat (length tasks)))) MapLookup MapLookup
                   (make_encode_map tasks) (make_decode_map tasks) (set_of_list tasks))
               (Z.of_nat (length tasks)) task) as (self' & Hadd & _ & Hn & Hn').
  - done.
  - simpl. by rewrite set_of_list_NoDup.
  - simpl. by rewrite elem_of_set_of_list.
  - exists self'. done.
Qed.

(** What [add_task] does keep, when the iteration of a set yields each of
    its elements once: after a new task is added, every known task, old or
    new, is encoded as an index that decodes to it. Which index an old
    task gets is up to the order of the iteration. *)
Lemma add_task_keeps_registered_roundtrip self (n : Z) task :
  (∀ s : list Task, set_iter s ≡ₚ s) →
  gym_space self = Some (Discrete n) →
  n = Z.of_nat (length (_tasks self)) →
  n + 1 <= int64_max →
  task ∉ _tasks self →
  ∃ self', add_task self task = (Ret tt, self')
    ∧ ∀ t, t ∈ _tasks self' →
        ∃ i : Z, encode self' t = Ret (PyInt i) ∧ decode self' (PyInt i) = Ret (PyObj t).
Proof.
  intros Hperm Hsp Hn Hfit Hnew. unfold add_task. rewrite decide_False by done.
  unfold increase_space, set_add. simpl. rewrite Hsp, decide_False by done.
  simpl. rewrite decide_True by (rewrite length_app; simpl; lia).
  eexists. split; [reflexivity |]. simpl. intros t Ht.
  pose proof (Hperm (_tasks self ++ [task])) as Hp.
  apply (maps_roundtrip _ (set_iter (_tasks self ++ [task]))); simpl; try done.
  - rewrite (Permutation_length Hp), length_app. simpl. do 2 f_equal. lia.
  - rewrite (Permutation_length Hp), length_app. simpl. lia.
  - by rewrite Hp.
Qed.

(** C1 (as amended). A TaskSpace constructed over Discrete(n) with a list
    of n pairwise distinct tasks ([n] at most [sys.maxsize], as the length
    of any Python list): every registered task [t] is encoded as an index
    that decodes to [t], and every index [i] with [0 <= i < n] decodes to
    a task that is encoded as [i]. *)
Theorem roundtrip_distinct tasks (n : Z) :
  n = Z.of_nat (length tasks) →
  n <= int64_max →
  NoDup tasks →
  ∃ self, __init__ (Discrete n) tasks = Ret self
    ∧ (∀ t, t ∈ _tasks self →
         ∃ i, encode self t = Ret (PyInt i) ∧ decode self (PyInt i) = Ret (PyObj t))
    ∧ (∀ i, 0 <= i < n →
         ∃ t, t ∈ _tasks self
           ∧ decode self (PyInt i) = Ret (PyObj t) ∧ encode self t = Ret (PyInt i)).
Proof.
  intros -> Hlen Hnodup. rewrite init_Discrete.
  eexists. split; [reflexivity |]. split.
  - intros t Ht. simpl in Ht. rewrite elem_of_set_of_list in Ht.
    destruct (decode_encode_registered tasks t Hlen Ht) as (self & i & Hinit & He & Hd).
    rewrite init_Discrete in Hinit. injection Hinit as <-. eauto.
  - intros i Hi.
    destruct (lookup_lt_is_Some_2 tasks (Z.to_nat i)) as [t Ht]; [lia |].
    assert (Hin : t ∈ tasks) by (by eapply list_elem_of_lookup_2).
    exists t. split; [simpl; by rewrite elem_of_set_of_list |]. split.
    + rewrite (decode_Discrete_inside _ (Z.of_nat (length tasks))); simpl; try done; [| lia].
      replace i with (Z.of_nat (Z.to_nat i)) by lia.
      by rewrite make_decode_map_lookup, Ht.
    + destruct (make_encode_map_in tasks t Hin) as (j & Hj & Hm).
      apply encode_known; [done |]. simpl. rewrite Hm. f_equal.
      rewrite (NoDup_lookup tasks j (Z.to_nat i) t Hnodup Hj Ht). lia.
Qed.

(** C3. [count_tasks] on a Tuple or a Dict with at least one subspace
    raises [TypeError]: the recursive call names its argument
    [task_space], and the parameter is [gym_space]. No sum is returned. *)
Theorem count_tasks_composite_raises self (s : Space) (spaces : list Space)
    (key : string) (items : list (string * Space)) :
  count_tasks self (Some (Tuple (s :: spaces))) = Raise TypeError
  ∧ count_tasks self (Some (Dict ((key, s) :: items))) = Raise TypeError.
Proof. split; reflexivity. Qed.

(** C10. Adding a task that is already known returns without an effect:
    the space, the coders, both maps and the set of known tasks are what
    they were. *)
Theorem add_task_known_unchanged self task :
  task ∈ _tasks self → add_task self task = (Ret tt, self).
Proof. intros Hin. unfold add_task. by rewrite decide_True. Qed.

End task_space_claims.

(** *** The task space on concrete inputs *)

Section task_space_examples.
Import TaskSpace.

Lemma roundtrip_distinct_witness :
  ∃ self, __init__ (Discrete 3) ["a"; "b"; "c"] = Ret self
    ∧ (∀ t : string, t ∈ _tasks self →
         ∃ i, encode self t = Ret (PyInt i) ∧ decode self (PyInt i) = Ret (PyObj t))
    ∧ (∀ i, 0 <= i < 3 →
         ∃ t : string, t ∈ _tasks self
           ∧ decode self (PyInt i) = Ret (PyObj t) ∧ encode self t = Ret (PyInt i)).
Proof.
  apply (roundtrip_distinct ["a"; "b"; "c"] 3).
  - reflexivity.
  - unfold int64_max. lia.
  - apply (bool_decide_unpack (NoDup ["a"; "b"; "c"])). vm_compute. exact I.
Defined.

(** C1, as stated, fails when the list repeats a task: over Discrete(2)
    with the list [["a", "a"]] the index 0 decodes to ["a"], which is
    encoded as 1. *)
Lemma roundtrip_fails_on_duplicates :
  ∃ self, __init__ (Discrete 2) ["a"; "a"] = Ret self
    ∧ ¬ (∀ i, 0 <= i < 2 →
           ∃ t : string, decode self (PyInt i) = Ret (PyObj t)
                         ∧ encode self t = Ret (PyInt i)).
Proof.
  eexists. split; [reflexivity |].
  intros Hall. destruct (Hall 0 ltac:(lia)) as (t & Hd & He).
  vm_compute in Hd. injection Hd as <-.
  vm_compute in He. discriminate He.
Qed.

Example roundtrip_duplicates_values :
  ∃ self, __init__ (Discrete 2) ["a"; "a"] = Ret self
    ∧ decode self (PyInt 0) = Ret (PyObj "a")
    ∧ encode self "a" = Ret (PyInt 1).
Proof. eexists. split; [reflexivity |]. split; reflexivity. Qed.

(** After a constructor list that repeats a task, the set of known tasks
    is smaller than the space, and adding a new task fails the assertion
    of [_make_task_encoder]. *)
Example add_task_after_duplicates :
  ∃ self, __init__ (Discrete 2) ["a"; "a"] = Ret self
    ∧ (add_task self "b").1 = Raise AssertionError.
Proof. eexists. split; reflexivity. Qed.

(** C2. Over Discrete(3) with the tasks [[3, 1, 2]], adding the new task
    7 succeeds and [num_tasks] becomes 4, but index 0, which decoded to
    task 3, now decodes to task 1: the maps are rebuilt from the set of
    known tasks, which CPython iterates as 1, 2, 3, 7. *)
Theorem add_task_reorders_indices :
  ∃ self self' : TaskSpace.t Z,
    __init__ (Discrete 3) [3; 1; 2] = Ret self
    ∧ (7 ∉ _tasks self)
    ∧ add_task self 7 = (Ret tt, self')
    ∧ num_tasks self = Ret (Some 3)
    ∧ num_tasks self' = Ret (Some 4)
    ∧ decode self (PyInt 0) = Ret (PyObj 3)
    ∧ decode self' (PyInt 0) = Ret (PyObj 1).
Proof.
  eexists _, _. split; [reflexivity |]. split.
  - refine (bool_decide_unpack _ _). vm_compute. exact I.
  - split; [vm_compute; reflexivity |]. repeat split; vm_compute; reflexivity.
Qed.

(** The failing input of C3: the count of Tuple((Discrete(2), Discrete(3)))
    is not 5. *)
Example count_tasks_Tuple_2_3 :
  count_tasks (TaskSpace.blank (Task := string))
    (Some (Tuple [Discrete 2; Discrete 3])) = Raise TypeError.
Proof. reflexivity. Qed.

(** C4. Over Discrete(3), [decode(2**63)] raises [OverflowError] and
    [decode(None)] raises [TypeError]: the conversion to [np.int64] comes
    before the test of the domain, and nothing catches what it raises. *)
Theorem decode_raises_outside_int64 :
  ∃ self, __init__ (Discrete 3) ["a"; "b"; "c"] = Ret self
    ∧ decode self (PyInt (2 ^ 63)) = Raise OverflowError
    ∧ decode self PyNone = Raise TypeError
    ∧ encode self "d" = Ret PyNone.
Proof. eexists. split; [reflexivity |]. repeat split; reflexivity. Qed.

(** C5. On a TaskSpace over a Box, [increase_space] returns [None] for an
    integer as for a non-integer amount: it does not raise. *)
Theorem increase_space_Box_returns_none :
  ∃ self, __init__ (Box [2]) ["a"] = Ret self
    ∧ increase_space self (AInt 1) = Ret None
    ∧ increase_space self AFloat = Ret None.
Proof. eexists. split; [reflexivity |]. split; reflexivity. Qed.

Lemma add_task_known_unchanged_witness :
  let self : TaskSpace.t string :=
    mk (Some (Discrete 2)) MapLookup MapLookup
       (make_encode_map ["a"; "b"]) (make_decode_map ["a"; "b"]) ["a"; "b"] in
  "a" ∈ _tasks self ∧ add_task self "a" = (Ret tt, self).
Proof.
  intros self.
  assert (Hin : "a" ∈ _tasks self) by apply list_elem_of_here.
  split; [exact Hin | exact (add_task_known_unchanged self "a" Hin)].
Defined.

End task_space_examples.

(** * Properties of the queue synchronisation wrapper *)

Section queue_wrapper_properties.
Import Curriculum MultiProcessingCurriculumWrapper.
Context {C Task Metrics : Type} `{!Curriculum C Task Metrics}.
Implicit Types (self : MultiProcessingCurriculumWrapper.t C Task Metrics)
  (tr : list (event Task Metrics)) (batch : list (update Metrics)).

(** *** Counting requests *)

(** The sum that the code computes is the number of entries whose flag is
    present and true. *)
Lemma requests_of_resample_count batch : requests_of batch = resample_count batch.
Proof.
  unfold requests_of, omap. induction batch as [| u batch IH]; simpl; [done |].
  destruct (request_sample u) as [[|] |]; simpl; rewrite IH; lia.
Qed.


Lemma requests_of_absent (u : update Metrics) batch :
  request_sample u = None → requests_of (u :: batch) = requests_of batch.
Proof. intros Hu. unfold requests_of. simpl. by rewrite Hu. Qed.

Lemma requests_of_false (u : update Metrics) batch :
  request_sample u = Some false → requests_of (u :: batch) = requests_of batch.
Proof. intros Hu. unfold requests_of. simpl. by rewrite Hu. Qed.

(** *** The trace *)

Lemma dispatched_app tr tr' : dispatched (tr ++ tr') = dispatched tr + dispatched tr'.
Proof.
  induction tr as [| ev tr IH]; simpl; [lia |].
  destruct ev; rewrite IH; lia.
Qed.


(** *** The seeds of [start] *)

Lemma seeds_put (tasks : list Task) : ∀ self,
  let self' := foldl (fun self task => put self Seed (mk_message task None)) self tasks in
  task_queue self' = task_queue self ++ ((fun task => mk_message task None) <$> tasks)
  ∧ trace self' = trace self ++ ((fun task => Seed (mk_message task None)) <$> tasks)
  ∧ curriculum self' = curriculum self
  ∧ num_envs self' = num_envs self
  ∧ update_queue self' = update_queue self
  ∧ update_thread self' = update_thread self
  ∧ should_update self' = should_update self
  ∧ queued_tasks self' = queued_tasks self
  ∧ added_tasks_buffer self' = added_tasks_buffer self.
Proof.
  induction tasks as [| task tasks IH]; intros self; simpl.
  - by rewrite !app_nil_r.
  - destruct (IH (put self Seed (mk_message task None)))
      as (Hq & Htr & Hc & Hn & Hu & Hth & Hs & Hcr & Hb).
    simpl in *. rewrite Hq, Htr, <- !app_assoc. simpl. done.
Qed.

Lemma seeds_not_counted (tasks : list Task) :
  dispatched ((fun task => Seed (Metrics := Metrics) (mk_message task None)) <$> tasks) = 0
  ∧ consumed_requests ((fun task => Seed (Metrics := Metrics) (mk_message task None)) <$> tasks) = 0.
Proof. induction tasks as [| task tasks IH]; simpl; [done | exact IH]. Qed.

Lemma start_fields self :
  let self' := start self in
  task_queue self'
    = task_queue self ++ ((fun task => mk_message task None) <$> (sample (curriculum self) (num_envs self)).1)
  ∧ trace self'
    = trace self ++ ((fun task => Seed (mk_message task None)) <$> (sample (curriculum self) (num_envs self)).1)
  ∧ curriculum self' = (sample (curriculum self) (num_envs self)).2
  ∧ queued_tasks self' = queued_tasks self
  ∧ added_tasks_buffer self' = added_tasks_buffer self
  ∧ update_queue self' = update_queue self
  ∧ should_update self' = true
  ∧ update_thread self' = AtWhile.
Proof.
  unfold start. destruct (sample (curriculum self) (num_envs self)) as [tasks c].
  simpl.
  match goal with
  | |- context [foldl ?f ?s tasks] =>
      destruct (seeds_put tasks s) as (Hq & Htr & Hc & Hn & Hu & Hth & Hs & Hcr & Hb)
  end.
  simpl in *. rewrite Hq, Htr, Hc, Hcr, Hb, Hu. done.
Qed.

End queue_wrapper_properties.

Section queue_wrapper_claims.
Import Curriculum MultiProcessingCurriculumWrapper.
Context {C Task Metrics : Type} `{!Curriculum C Task Metrics}.
Implicit Types (self : MultiProcessingCurriculumWrapper.t C Task Metrics)
  (tr : list (event Task Metrics)) (batch : list (update Metrics)).

(** What the workers and the owner do leaves the counter, the thread and
    the trace alone. *)
Lemma env_step_frame self self' :
  env_step self self' →
  queued_tasks self' = queued_tasks self
  ∧ update_thread self' = update_thread self
  ∧ trace self' = trace self.
Proof. intros Henv. destruct Henv; done. Qed.

(** *** The credit counter, statement by statement *)






(** *** Turns of the loops are runs of statements *)

Lemma statements_reachable (k : nat) (s : running) :
  running_reachable s → running_reachable (Nat.iter k statement_step s).
Proof.
  intros Hreach. induction k as [| k IH]; [done |].
  simpl. eapply running_next; [exact IH | apply thread_statement].
Qed.

(** One step of [_update_queues], a whole turn of one of its loops, is a
    run of statements. *)
Lemma turn_is_statements self :
  ∃ k : nat,
    Nat.iter k statement_step (statements_of self) = statements_of (_update_queues self).
Proof.
  unfold statements_of, _update_queues.
  destruct self as [c n tq uq th run cr buf tr]. simpl.
  destruct th as [| | r | [| task rest] | |].
  - by exists 0%nat.
  - exists 1%nat. simpl. unfold statement_step. simpl. by destruct run.
  - destruct uq as [[| item q] |].
    + exists 2%nat. simpl. unfold statement_step. simpl.
      case_decide; [| done]. by destruct (sample c r).
    + by exists 3%nat.
    + exists 2%nat. simpl. unfold statement_step. simpl.
      case_decide; [| done]. by destruct (sample c r).
  - by exists 1%nat.
  - by exists 4%nat.
  - by exists 1%nat.
  - by exists 0%nat.
Qed.

(** Every state that the wrapper reaches turn by turn is one that it
    reaches statement by statement. *)
Lemma reachable_running self : reachable self → running_reachable (statements_of self).
Proof.
  intros Hreach. induction Hreach as [c n tq uq | self self' _ IH Hstep].
  - assert (Hstart : statements_of (start (__init__ c n tq uq))
                     = mk_running (start (__init__ c n tq uq)) LWhile).
    { unfold statements_of, start. simpl. by destruct (sample c n). }
    rewrite Hstart. apply running_start.
  - destruct Hstep as [self | self self' Henv].
    + destruct (turn_is_statements self) as [k <-]. by apply statements_reachable.
    + eapply running_next; [exact IH |].
      destruct (env_step_frame _ _ Henv) as (_ & Hth & _).
      unfold statements_of. rewrite Hth.
      apply (other_statement (mk_running (goto self AtWhile) (line_of (update_thread self)))).
      simpl. destruct Henv as [self q item Hq | self m q Hq | self task | self].
      * exact (worker_put (goto self AtWhile) q item Hq).
      * exact (worker_get (goto self AtWhile) m q Hq).
      * exact (owner_add_task (goto self AtWhile) task).
      * exact (owner_stop (goto self AtWhile)).
Qed.

(** C7. [start()] on a wrapper for [N] workers asks the curriculum for
    [N] tasks once; the curriculum returning [N] tasks, as its contract
    says, [N] assignment messages are appended to the task queue, one per
    task, in order and without [added_tasks]; the credit counter is what
    it was and the thread is at the top of its loop. *)
Theorem start_seeds_workers self :
  sample_returns_k →
  0 <= num_envs self →
  let initial_tasks := (sample (curriculum self) (num_envs self)).1 in
  let self' := start self in
  length initial_tasks = Z.to_nat (num_envs self)
  ∧ task_queue self'
    = task_queue self ++ ((fun task => mk_message task None) <$> initial_tasks)
  ∧ Z.of_nat (length (task_queue self'))
    = Z.of_nat (length (task_queue self)) + num_envs self
  ∧ curriculum self' = (sample (curriculum self) (num_envs self)).2
  ∧ queued_tasks self' = queued_tasks self
  ∧ dispatched (trace self') = dispatched (trace self)
  ∧ update_thread self' = AtWhile
  ∧ should_update self' = true.
Proof.
  intros Hk Hn initial_tasks self'.
  destruct (start_fields self) as (Hq & Htr & Hc & Hcr & _ & _ & Hs & Hth).
  fold self' in Hq, Htr, Hc, Hcr, Hs, Hth. fold initial_tasks in Hq, Htr.
  pose proof (Hk (curriculum self) (num_envs self) Hn) as Hlen.
  fold initial_tasks in Hlen.
  split; [done |]. split; [done |]. split.
  { rewrite Hq, length_app, length_fmap, Hlen. lia. }
  split; [done |]. split; [done |]. split; [| done].
  rewrite Htr, dispatched_app.
  destruct (seeds_not_counted (Metrics := Metrics) initial_tasks) as [-> _]. lia.
Qed.

(** The thread, left alone, empties the update queue: every item is
    handed to the curriculum, in order. *)
Lemma drain_all (q : list (update_item Metrics)) : ∀ self (r : Z),
  update_thread self = Draining r →
  update_queue self = Some q →
  let self' := Nat.iter (length q) _update_queues self in
  curriculum self'
  = foldl (fun c item => batch_update_curriculum c (as_batch item)) (curriculum self) q
  ∧ update_thread self'
    = Draining (r + foldr (fun item acc => resample_count (as_batch item) + acc) 0 q)
  ∧ update_queue self' = Some [].
Proof.
  induction q as [| item q IH]; intros self r Hth Hq.
  - simpl. rewrite Hth, Hq. split; [done |]. split; [f_equal; lia | done].
  - change (length (item :: q)) with (S (length q)). rewrite Nat.iter_succ_r.
    assert (Hstep : _update_queues self = consume self r item q).
    { unfold _update_queues. by rewrite Hth, Hq. }
    destruct (IH (consume self r item q) (r + requests_of (as_batch item)))
      as (Hc & Hth' & Hq'); [done | done |].
    rewrite Hstep. cbv zeta in Hc, Hth', Hq' |- *. rewrite Hc, Hth', Hq'. simpl.
    split; [done |]. split; [| done].
    rewrite requests_of_resample_count. f_equal. lia.
Qed.

(** C8. In an iteration of the consumer loop whose drain finds the items
    [q] on the update queue, every item is applied to the curriculum with
    [batch_update_curriculum], in order and whatever its flags: a list of
    entries as it is, a single entry as the list of that one entry. The
    count of requests is the number of entries whose flag is present and
    true, an entry without the key [request_sample] adding nothing. *)
Theorem drained_batches_are_applied self (r : Z) (q : list (update_item Metrics)) :
  update_thread self = Draining r →
  update_queue self = Some q →
  let entries := fun item : update_item Metrics =>
    match item with
    | OneUpdate u => [u]
    | UpdateList l => l
    end in
  let self' := Nat.iter (length q) _update_queues self in
  curriculum self'
  = foldl (fun c item => batch_update_curriculum c (entries item)) (curriculum self) q
  ∧ update_thread self'
    = Draining (r + foldr (fun item acc => resample_count (entries item) + acc) 0 q)
  ∧ update_queue self' = Some []
  ∧ (∀ (u : update Metrics) batch,
       request_sample u = None → requests_of (u :: batch) = requests_of batch)
  ∧ (∀ batch, requests_of batch = resample_count batch).
Proof.
  intros Hth Hq entries self'.
  destruct (drain_all q self r Hth Hq) as (Hc & Hth' & Hq').
  split; [exact Hc |]. split; [exact Hth' |]. split; [exact Hq' |].
  split; [apply requests_of_absent | apply requests_of_resample_count].
Qed.

(** The turns of [_update_queues], the thread running alone, lead from
    reachable states to reachable states. *)
Lemma turns_reachable (k : nat) self :
  reachable self → reachable (Nat.iter k _update_queues self).
Proof.
  intros Hreach. induction k as [| k IH]; [done |].
  simpl. eapply reachable_step; [exact IH | apply thread_step].
Qed.

End queue_wrapper_claims.

(** *** The queue wrapper on concrete inputs *)

Section queue_wrapper_examples.
Import Curriculum MultiProcessingCurriculumWrapper Examples.

Lemma counting_returns_k : sample_returns_k (C := Z) (Task := Z) (Metrics := unit).
Proof.
  intros c k Hk. simpl. by rewrite length_fmap, length_seq.
Qed.

Lemma started_reachable : reachable started.
Proof. apply reachable_start. Qed.

Lemma update_posted_reachable : reachable update_posted.
Proof.
  apply (reachable_step started); [apply started_reachable |].
  apply other_step.
  exact (worker_put started [] (OneUpdate (mk_update tt (Some true))) eq_refl).
Qed.

Lemma update_drained_reachable : reachable update_drained.
Proof. exact (turns_reachable 2 update_posted update_posted_reachable). Qed.

Example update_drained_state :
  update_thread update_drained = Draining 1
  ∧ task_queue update_drained = [mk_message 0 None; mk_message 1 None]
  ∧ dispatched (trace update_drained) = 0
  ∧ consumed_requests (trace update_drained) = 1
  ∧ log_metrics update_drained = -1.
Proof. repeat split; reflexivity. Qed.


Lemma replacement_put_reachable : running_reachable replacement_put.
Proof.
  apply statements_reachable, reachable_running.
  exact (turns_reachable 3 update_posted update_posted_reachable).
Qed.


Example request_subtracted_state :
  line request_subtracted = LBatchUpdate 1 [mk_update tt (Some true)]
  ∧ dispatched (trace (wrapper request_subtracted)) = 0
  ∧ consumed_requests (trace (wrapper request_subtracted)) = 1
  ∧ log_metrics (wrapper request_subtracted) = -1.
Proof. repeat split; reflexivity. Qed.

(** Between [task_queue.put] and [queued_tasks += 1] the counter is one
    less than the difference of the two numbers. *)
Example replacement_put_state :
  line replacement_put = LIncrement []
  ∧ dispatched (trace (wrapper replacement_put)) = 1
  ∧ consumed_requests (trace (wrapper replacement_put)) = 1
  ∧ log_metrics (wrapper replacement_put) = -1.
Proof. repeat split; reflexivity. Qed.


Lemma start_seeds_workers_witness :
  let self : MultiProcessingCurriculumWrapper.t Z Z unit := __init__ 0 2 [] (Some []) in
  0 <= num_envs self
  ∧ task_queue (start self) = [mk_message 0 None; mk_message 1 None]
  ∧ Z.of_nat (length (task_queue (start self))) = 2
  ∧ queued_tasks (start self) = 0.
Proof.
  intros self.
  assert (Hn : 0 <= num_envs self) by (simpl; lia).
  destruct (start_seeds_workers self counting_returns_k Hn)
    as (_ & Hq & Hlen & _ & Hcr & _).
  split; [exact Hn |]. split; [exact Hq |]. split; [exact Hlen | exact Hcr].
Defined.

Lemma drained_batches_are_applied_witness :
  let self' := Nat.iter 2 _update_queues two_items_queued in
  curriculum self' = [[asking; silent]; [declining]]
  ∧ update_thread self' = Draining 1
  ∧ update_queue self' = Some [].
Proof.
  intros self'.
  destruct (drained_batches_are_applied two_items_queued 0
              [UpdateList [asking; silent]; OneUpdate declining] eq_refl eq_refl)
    as (Hc & Hth & Hq & _).
  split; [exact Hc |]. split; [exact Hth | exact Hq].
Defined.

End queue_wrapper_examples.

(** * Properties of the actor synchronisation wrapper *)

Section actor_wrapper_claims.
Import RayCurriculumWrapper.
Context {Args : Type}.
Variable decorated : string → bool.

(** A bound method is no function: the test of [wrapper] never passes. *)
Lemma bound_method_ne_function (self : nat) (f g : function) :
  py_eq (BoundMethod self f) (Function g) = false.
Proof. reflexivity. Qed.

(** Whatever function it decorates, on whatever instance and arguments,
    the [wrapper] of [remote_call] calls nothing. *)
Lemma wrapper_never_forwards (func : function) (self : nat) (args : Args) :
  wrapper decorated func self args = ReturnNone
  ∨ wrapper decorated func self args = NoAttribute.
Proof.
  unfold wrapper, getattr_base, getattr.
  case_decide; [| by right].
  destruct (class_lookup decorated (__name__ func)); simpl; [by left | by right].
Qed.

(** C9. The operations of the facade that [RayCurriculumWrapper] does not
    override and that reach the curriculum are not forwarded as a remote
    call: where the class decorator has wrapped the operation, the call
    returns [None] and nothing is called; where it has not, the body of
    [CurriculumWrapper] runs and calls the actor handle directly. *)
Theorem unmodified_operations_not_forwarded (self : nat) (args : Args) :
  Forall (fun name =>
            (name ∉ overridden)
            ∧ call decorated self name args
              = if decorated name then ReturnNone else DirectCall name args)
         ["complete_task"; "_on_step"; "log_metrics"; "update_curriculum";
          "batch_update_curriculum"].
Proof.
  repeat (apply Forall_cons_2;
          [split;
           [refine (bool_decide_unpack _ _); vm_compute; exact I
           | match goal with
             | |- context [decorated ?n] => destruct (decorated n) eqn:Hd
             end;
             vm_compute; rewrite ?Hd; reflexivity]
          |]).
  apply Forall_nil_2.
Qed.

End actor_wrapper_claims.

(** * Further properties of the task space *)

Section task_space_further.
Import TaskSpace.
Context {Task : Type} `{Countable Task} `{!PyRuntime Task}.
Implicit Types (l : list Task) (t task : Task) (self : TaskSpace.t Task).

(** The index that the encode map gives a task is the last one at which
    the task stands. *)
Lemma encode_fold_last l : ∀ start (m : gmap Task Z) t (i : nat),
  l !! i = Some t →
  t ∉ drop (S i) l →
  foldl (fun m p => <[p.2 := p.1]> m) m (enumerate_from start l) !! t
  = Some (start + Z.of_nat i).
Proof.
  induction l as [| x l IH]; intros start m t i Hi Hlast; [done |].
  destruct i as [| i]; simpl in *.
  - injection Hi as ->. rewrite drop_0 in Hlast.
    rewrite encode_fold_notin by done. rewrite lookup_insert_eq. f_equal. lia.
  - rewrite (IH (start + 1) _ t i Hi Hlast). f_equal. lia.
Qed.

(** X1. A task that is not in the list of the constructor is encoded as
    [None] by the space constructed over Discrete(len(list)). *)
Theorem encode_unlisted_task l t :
  t ∉ l →
  ∃ self, __init__ (Discrete (Z.of_nat (length l))) l = Ret self
    ∧ encode self t = Ret PyNone.
Proof.
  intros Hnot. rewrite init_Discrete. eexists. split; [reflexivity |].
  apply encode_unknown; [done |]. simpl. by apply make_encode_map_notin.
Qed.

(** X2. A task of the list is encoded as the last index at which it
    stands in the list: when the list repeats a task, the later position
    wins. *)
Theorem encode_last_position l (i : nat) t :
  l !! i = Some t →
  t ∉ drop (S i) l →
  ∃ self, __init__ (Discrete (Z.of_nat (length l))) l = Ret self
    ∧ encode self t = Ret (PyInt (Z.of_nat i)).
Proof.
  intros Hi Hlast. rewrite init_Discrete. eexists. split; [reflexivity |].
  apply encode_known; [done |]. simpl. unfold make_encode_map, enumerate.
  by rewrite (encode_fold_last l 0 ∅ t i Hi Hlast).
Qed.

(** X3. In the space constructed over Discrete(len(list)), the index of a
    position of the list decodes to the task at that position, and
    [contains] of that index is true. *)
Theorem decode_listed_position l (i : nat) t :
  l !! i = Some t →
  Z.of_nat (length l) <= int64_max →
  ∃ self, __init__ (Discrete (Z.of_nat (length l))) l = Ret self
    ∧ decode self (PyInt (Z.of_nat i)) = Ret (PyObj t)
    ∧ contains self (PyInt (Z.of_nat i)) = Ret true.
Proof.
  intros Hi Hlen. rewrite init_Discrete. eexists. split; [reflexivity |].
  assert (Hd : decode
                 (mk (Some (Discrete (Z.of_nat (length l)))) MapLookup MapLookup
                     (make_encode_map l) (make_decode_map l) (set_of_list l))
                 (PyInt (Z.of_nat i)) = Ret (PyObj t)).
  { rewrite (decode_Discrete_inside _ (Z.of_nat (length l))); simpl; try done.
    - by rewrite make_decode_map_lookup, Hi.
    - apply lookup_lt_Some in Hi. lia.
    - lia. }
  split; [exact Hd |]. unfold contains. rewrite Hd. simpl. f_equal.
  apply bool_decide_eq_true. rewrite elem_of_set_of_list.
  by eapply list_elem_of_lookup_2.
Qed.

(** X4. Over a Discrete(n) space, an integer that fits [np.int64] and is
    not in [0, n) decodes to [None], whatever the maps hold; [contains] of
    it then tells whether [None] is one of the known tasks: it is false
    when no known task is [None], and true when one is. *)
Theorem index_out_of_range self (n i : Z) :
  gym_space self = Some (Discrete n) →
  in_int64 i = true →
  ¬ (0 <= i < n) →
  decode self (PyInt i) = Ret PyNone
  ∧ contains self (PyInt i)
    = Ret (bool_decide (Exists (fun task => is_none task = true) (_tasks self)))
  ∧ (Forall (fun task => is_none task = false) (_tasks self) →
     contains self (PyInt i) = Ret false)
  ∧ (∀ task, task ∈ _tasks self → is_none task = true →
     contains self (PyInt i) = Ret true).
Proof.
  intros Hsp Hfit Hout.
  pose proof (decode_Discrete_outside self n i Hsp Hfit Hout) as Hd.
  assert (Hc : contains self (PyInt i)
               = Ret (bool_decide (Exists (fun task => is_none task = true) (_tasks self)))).
  { unfold contains. by rewrite Hd. }
  split; [exact Hd |]. split; [exact Hc |]. split.
  - intros Hall. rewrite Hc. f_equal. apply bool_decide_eq_false.
    intros Hex. apply Exists_exists in Hex as (task & Hin & Htask).
    rewrite Forall_forall in Hall. specialize (Hall task Hin). congruence.
  - intros task Hin Htask. rewrite Hc. f_equal. apply bool_decide_eq_true.
    apply Exists_exists. eauto.
Qed.

(** X5. The constructor returns an object only for a Discrete space whose
    size is the length of the list, or for a Box; the object then holds
    the space it was given and the set of the listed tasks. Every other
    case raises. *)
Theorem init_returns_only_for (space : Space) l self :
  __init__ space l = Ret self →
  (space = Discrete (Z.of_nat (length l)) ∨ ∃ shape, space = Box shape)
  ∧ gym_space self = Some space
  ∧ _tasks self = set_of_list l.
Proof.
  unfold __init__, _make_task_encoder.
  destruct space as [n | shape | spaces | spaces | nvec | nvec]; simpl;
    try discriminate.
  - case_decide as Hn; [| discriminate]. intros [= <-]. simpl. subst n. eauto.
  - intros [= <-]. simpl. eauto.
  - destruct l as [| task l']; [discriminate |].
    destruct (task_len task); discriminate.
Qed.

(** X6. On a Discrete space whose size is the number of known tasks,
    adding a new task returns, records the task last, grows the space and
    [num_tasks] by one, and leaves the size equal to the number of known
    tasks: tasks can be added one after the other. *)
Theorem add_task_keeps_size self (n : Z) task :
  gym_space self = Some (Discrete n) →
  n = Z.of_nat (length (_tasks self)) →
  task ∉ _tasks self →
  ∃ self', add_task self task = (Ret tt, self')
    ∧ _tasks self' = _tasks self ++ [task]
    ∧ gym_space self' = Some (Discrete (Z.of_nat (length (_tasks self'))))
    ∧ num_tasks self = Ret (Some n)
    ∧ num_tasks self' = Ret (Some (n + 1)).
Proof.
  intros Hsp Hn Hnew. unfold add_task. rewrite decide_False by done.
  unfold increase_space, set_add. simpl. rewrite Hsp, decide_False by done.
  simpl. rewrite decide_True by (rewrite length_app; simpl; lia).
  eexists. split; [reflexivity |]. simpl. split; [done |]. split.
  - do 2 f_equal. rewrite length_app. simpl. lia.
  - unfold num_tasks, count_tasks. rewrite Hsp. done.
Qed.

(** X7. When the iteration of a set yields each element once, both round
    trips hold again after a new task is added to a Discrete space of
    distinct known tasks: every known task, old or new, is encoded as an
    index that decodes to it, and every index below the new size decodes
    to a known task that is encoded as that index. *)
Theorem add_task_keeps_roundtrip self (n : Z) task :
  (∀ s : list Task, set_iter s ≡ₚ s) →
  gym_space self = Some (Discrete n) →
  n = Z.of_nat (length (_tasks self)) →
  n + 1 <= int64_max →
  NoDup (_tasks self) →
  task ∉ _tasks self →
  ∃ self', add_task self task = (Ret tt, self')
    ∧ (∀ t, t ∈ _tasks self' →
         ∃ i : Z, encode self' t = Ret (PyInt i) ∧ decode self' (PyInt i) = Ret (PyObj t))
    ∧ (∀ i : Z, 0 <= i < n + 1 →
         ∃ t, t ∈ _tasks self'
           ∧ decode self' (PyInt i) = Ret (PyObj t) ∧ encode self' t = Ret (PyInt i)).
Proof.
  intros Hperm Hsp Hn Hfit Hnd Hnew.
  destruct (add_task_keeps_registered_roundtrip self n task Hperm Hsp Hn Hfit Hnew)
    as (self' & Hadd & Hrt).
  exists self'. split; [exact Hadd |]. split; [exact Hrt |].
  revert Hadd. unfold add_task. rewrite decide_False by done.
  unfold increase_space, set_add. simpl. rewrite Hsp, decide_False by done.
  simpl. rewrite decide_True by (rewrite length_app; simpl; lia).
  intros [= <-]. simpl. intros i Hi.
  pose proof (Hperm (_tasks self ++ [task])) as Hp.
  set (order := set_iter (_tasks self ++ [task])) in *.
  assert (Hlen : length order = S (length (_tasks self))).
  { rewrite (Permutation_length Hp), length_app. simpl. lia. }
  assert (Hnd' : NoDup order).
  { rewrite Hp. apply NoDup_app. split; [done |]. split.
    - intros x Hx Hx'. apply list_elem_of_singleton in Hx' as ->. done.
    - apply NoDup_singleton. }
  destruct (lookup_lt_is_Some_2 order (Z.to_nat i)) as [t Ht]; [lia |].
  assert (Hin : t ∈ order) by (by eapply list_elem_of_lookup_2).
  exists t. split; [by rewrite <- Hp |]. split.
  - rewrite (decode_Discrete_inside _ (n + 1)); simpl; try done; [| lia].
    replace i with (Z.of_nat (Z.to_nat i)) by lia.
    by rewrite make_decode_map_lookup, Ht.
  - destruct (make_encode_map_in order t Hin) as (j & Hj & Hm).
    apply encode_known; [done |]. simpl. rewrite Hm. f_equal.
    rewrite (NoDup_lookup order j (Z.to_nat i) t Hnd' Hj Ht). lia.
Qed.

(** X8. On a space over a Box, adding a new task raises
    [NotImplementedError] after the task was recorded and the space was
    replaced by [None]: from then on [decode] raises [AttributeError], and
    adding the same task again returns without a word. *)
Theorem add_task_on_Box self (shape : list Z) task :
  gym_space self = Some (Box shape) →
  task ∉ _tasks self →
  ∃ self', add_task self task = (Raise NotImplementedError, self')
    ∧ gym_space self' = None
    ∧ _tasks self' = _tasks self ++ [task]
    ∧ (∀ x, decode self' x = Raise AttributeError)
    ∧ add_task self' task = (Ret tt, self').
Proof.
  intros Hsp Hnew. unfold add_task at 1. rewrite decide_False by done.
  unfold increase_space, set_add. simpl. rewrite Hsp, decide_False by done.
  simpl. eexists. split; [reflexivity |]. simpl.
  split; [done |]. split; [done |]. split; [done |].
  unfold add_task. simpl. rewrite decide_True; [done |].
  apply elem_of_app. right. apply list_elem_of_here.
Qed.

(** X9. On a Discrete(n) space that knows another number of tasks than
    [n] (as after a constructor list with repeated tasks), adding a new
    task raises [AssertionError] halfway: the task is recorded and the
    space has grown to [n + 1], so [num_tasks] reports one more, while
    both maps are the old ones. *)
Theorem add_task_size_mismatch self (n : Z) task :
  gym_space self = Some (Discrete n) →
  n + 1 ≠ Z.of_nat (length (_tasks self)) + 1 →
  task ∉ _tasks self →
  ∃ self', add_task self task = (Raise AssertionError, self')
    ∧ _tasks self' = _tasks self ++ [task]
    ∧ num_tasks self' = Ret (Some (n + 1))
    ∧ _encode_map self' = _encode_map self
    ∧ _decode_map self' = _decode_map self
    ∧ encode self' task = encode self task.
Proof.
  intros Hsp Hn Hnew. unfold add_task. rewrite decide_False by done.
  unfold increase_space, set_add. simpl. rewrite Hsp, decide_False by done.
  simpl. rewrite decide_False by (rewrite length_app; simpl; lia).
  eexists. split; [reflexivity |]. simpl. done.
Qed.

End task_space_further.

(** * Enumerating and counting tasks *)

Section enumeration.
Import TaskSpace.

Lemma length_py_range (n : Z) : length (py_range n) = Z.to_nat n.
Proof. unfold py_range. by rewrite length_fmap, length_seq. Qed.

Lemma py_range_lookup (n : Z) (k : nat) :
  (k < Z.to_nat n)%nat → py_range n !! k = Some (Z.of_nat k).
Proof.
  intros Hk. unfold py_range. rewrite list_lookup_fmap, lookup_seq_lt by done. done.
Qed.

Lemma elem_of_py_range (n i : Z) : i ∈ py_range n ↔ 0 <= i < n.
Proof.
  unfold py_range. rewrite list_elem_of_fmap. split.
  - intros (k & -> & Hk). apply elem_of_seq in Hk. lia.
  - intros Hi. exists (Z.to_nat i). split; [lia |]. apply elem_of_seq. lia.
Qed.

Lemma NoDup_py_range (n : Z) : NoDup (py_range n).
Proof.
  unfold py_range. apply NoDup_fmap_2; [| apply NoDup_seq].
  intros x y Hxy. lia.
Qed.

(** A comprehension none of whose elements raises. *)
Lemma comprehension_fmap_Ret {A B D} (h : D → A) (f : A → result B) (g : D → B)
    (l : list D) :
  (∀ d, f (h d) = Ret (g d)) → comprehension f (h <$> l) = Ret (g <$> l).
Proof.
  intros Hf. induction l as [| d l IH]; [done |].
  rewrite !fmap_cons. cbn [comprehension]. rewrite Hf, IH. done.
Qed.

(** *** The Cartesian product *)

Lemma elem_of_product {A} (iterables : list (list A)) : ∀ combo : list A,
  combo ∈ product iterables ↔ Forall2 (fun x l => x ∈ l) combo iterables.
Proof.
  induction iterables as [| l iterables IH]; intros combo; simpl.
  - rewrite list_elem_of_singleton. split.
    + intros ->. constructor.
    + intros Hall. by apply Forall2_nil_inv_r in Hall.
  - rewrite list_elem_of_bind. split.
    + intros (x & Hcombo & Hx). apply list_elem_of_fmap in Hcombo as (rest & -> & Hrest).
      constructor; [done |]. by apply IH.
    + intros Hall. apply Forall2_cons_inv_r in Hall as (x & rest & Hx & Hrest & ->).
      exists x. split; [| done]. apply list_elem_of_fmap. exists rest.
      split; [done |]. by apply IH.
Qed.

Lemma length_product {A} (iterables : list (list A)) :
  length (product iterables)
  = foldr (fun l acc => (length l * acc)%nat) 1%nat iterables.
Proof.
  induction iterables as [| l iterables IH]; [done |].
  cbn [product foldr]. rewrite <- IH. clear IH.
  generalize (product iterables). intros combos.
  induction l as [| x l IHl]; [done |].
  rewrite bind_cons, length_app, length_fmap, IHl. simpl. lia.
Qed.

Lemma NoDup_product {A} (iterables : list (list A)) :
  Forall NoDup iterables → NoDup (product iterables).
Proof.
  induction iterables as [| l iterables IH]; intros Hall; simpl.
  - apply NoDup_singleton.
  - apply Forall_cons in Hall as [Hl Hrest]. apply NoDup_bind; [| | done].
    + intros x1 x2 combo _ _ H1 H2.
      apply list_elem_of_fmap in H1 as (r1 & -> & _).
      apply list_elem_of_fmap in H2 as (r2 & Heq & _). by injection Heq.
    + intros x _. apply NoDup_fmap_2; [| by apply IH].
      intros r1 r2 Heq. by injection Heq.
Qed.

(** The combinations over the ranges of the sizes are the lists of
    indices, one below each size. *)
Lemma elem_of_product_ranges (sizes : list Z) : ∀ combo : list enumerated,
  combo ∈ product ((fun n => EInt <$> py_range n) <$> sizes)
  ↔ ∃ idx : list Z, combo = EInt <$> idx
      ∧ Forall2 (fun i n => 0 <= i < n) idx sizes.
Proof.
  intros combo. rewrite elem_of_product. revert combo.
  induction sizes as [| n sizes IH]; intros combo; simpl.
  - split.
    + intros Hall. apply Forall2_nil_inv_r in Hall as ->. exists []. by split.
    + intros (idx & -> & Hall). apply Forall2_nil_inv_r in Hall as ->. constructor.
  - split.
    + intros Hall. apply Forall2_cons_inv_r in Hall as (x & rest & Hx & Hrest & ->).
      apply list_elem_of_fmap in Hx as (i & -> & Hi). apply elem_of_py_range in Hi.
      apply IH in Hrest as (idx & -> & Hidx).
      exists (i :: idx). split; [done |]. by constructor.
    + intros (idx & -> & Hall).
      apply Forall2_cons_inv_r in Hall as (i & idx' & Hi & Hidx & ->).
      simpl. constructor.
      * apply list_elem_of_fmap. exists i. split; [done |]. by apply elem_of_py_range.
      * apply IH. by exists idx'.
Qed.

Lemma length_product_ranges (sizes : list Z) :
  Forall (fun n => 0 <= n) sizes →
  Z.of_nat (length (product ((fun n => EInt <$> py_range n) <$> sizes)))
  = foldr Z.mul 1 sizes.
Proof.
  intros Hpos. rewrite length_product.
  induction Hpos as [| n sizes Hn _ IH]; [done |].
  rewrite fmap_cons. cbn [foldr].
  rewrite Nat2Z.inj_mul, IH, length_fmap, length_py_range. lia.
Qed.

Lemma enumerate_flat_axes (sizes : list Z) :
  _enumerate_axes (Axes (Size <$> sizes))
  = Ret (ETuple <$> product ((fun n => EInt <$> py_range n) <$> sizes)).
Proof.
  simpl.
  rewrite (comprehension_fmap_Ret Size _enumerate_axes (fun n => EInt <$> py_range n));
    done.
Qed.

Lemma sum_flat_axes (sizes : list Z) :
  _sum_axes (Axes (Size <$> sizes)) = Ret (np_prod sizes).
Proof.
  simpl. rewrite (comprehension_fmap_Ret Size _sum_axes id); [| done].
  simpl. by rewrite list_fmap_id.
Qed.

End enumeration.

Section enumeration_properties.
Import TaskSpace.
Context {Task : Type} `{Countable Task} `{!PyRuntime Task}.
Implicit Types (self : TaskSpace.t Task).

Lemma count_tasks_flat_MultiDiscrete self (sizes : list Z) :
  count_tasks self (Some (MultiDiscrete (Axes (Size <$> sizes))))
  = Ret (Some (wrap_int64 (foldr Z.mul 1 sizes))).
Proof.
  change (count_tasks self (Some (MultiDiscrete (Axes (Size <$> sizes)))))
    with (n ← _sum_axes (Axes (Size <$> sizes)); Ret (Some n)).
  by rewrite sum_flat_axes.
Qed.

Lemma count_tasks_flat_MultiBinary self (sizes : list Z) :
  count_tasks self (Some (MultiBinary (Axes (Size <$> sizes))))
  = Ret (Some (wrap_int64 (foldr Z.mul 1 sizes))).
Proof.
  change (count_tasks self (Some (MultiBinary (Axes (Size <$> sizes)))))
    with (n ← _sum_axes (Axes (Size <$> sizes)); Ret (Some n)).
  by rewrite sum_flat_axes.
Qed.

(** X10. For a MultiDiscrete or a MultiBinary space whose [nvec] is a flat
    list of axis sizes, of any length, [count_tasks] is the product of the
    sizes, as long as the product fits [np.int64]. *)
Theorem count_tasks_flat_axes self (sizes : list Z) :
  int64_min <= foldr Z.mul 1 sizes <= int64_max →
  count_tasks self (Some (MultiDiscrete (Axes (Size <$> sizes))))
  = Ret (Some (foldr Z.mul 1 sizes))
  ∧ count_tasks self (Some (MultiBinary (Axes (Size <$> sizes))))
    = Ret (Some (foldr Z.mul 1 sizes)).
Proof.
  intros Hfit.
  rewrite count_tasks_flat_MultiDiscrete, count_tasks_flat_MultiBinary.
  by rewrite wrap_int64_fits.
Qed.

(** X11. Over a Discrete(n) space, [tasks] is the list of the integers
    from 0 to n - 1 in ascending order, and [num_tasks] is its length. *)
Theorem tasks_of_Discrete self (n : Z) :
  gym_space self = Some (Discrete n) →
  0 <= n →
  ∃ xs, TaskSpace.tasks self = Ret (EList xs)
    ∧ num_tasks self = Ret (Some (Z.of_nat (length xs)))
    ∧ (∀ i : Z, 0 <= i < n → xs !! Z.to_nat i = Some (EInt i))
    ∧ (∀ x, x ∈ xs → ∃ i : Z, x = EInt i ∧ 0 <= i < n).
Proof.
  intros Hsp Hn. exists (EInt <$> py_range n).
  unfold TaskSpace.tasks, get_tasks, num_tasks, count_tasks. rewrite Hsp. simpl.
  split; [done |]. split.
  { rewrite length_fmap, length_py_range. do 2 f_equal. lia. }
  split.
  - intros i Hi. rewrite list_lookup_fmap, py_range_lookup by lia.
    simpl. do 2 f_equal. lia.
  - intros x Hx. apply list_elem_of_fmap in Hx as (i & -> & Hi).
    exists i. split; [done |]. by apply elem_of_py_range.
Qed.

(** X12. For a MultiDiscrete space with a flat list of axis sizes,
    [get_tasks] returns, without repetition, exactly the tuples of
    integers that have one index below each size. *)
Theorem get_tasks_flat_axes self (sizes : list Z) :
  ∃ xs, get_tasks self (Some (MultiDiscrete (Axes (Size <$> sizes)))) = Ret (EList xs)
    ∧ get_tasks self (Some (MultiBinary (Axes (Size <$> sizes)))) = Ret (EList xs)
    ∧ NoDup xs
    ∧ ∀ x, x ∈ xs ↔
        ∃ idx : list Z, x = ETuple (EInt <$> idx)
          ∧ Forall2 (fun i n => 0 <= i < n) idx sizes.
Proof.
  exists (ETuple <$> product ((fun n => EInt <$> py_range n) <$> sizes)).
  split.
  { change (get_tasks self (Some (MultiDiscrete (Axes (Size <$> sizes)))))
      with (xs ← _enumerate_axes (Axes (Size <$> sizes)); Ret (EList xs)).
    by rewrite enumerate_flat_axes. }
  split.
  { change (get_tasks self (Some (MultiBinary (Axes (Size <$> sizes)))))
      with (xs ← _enumerate_axes (Axes (Size <$> sizes)); Ret (EList xs)).
    by rewrite enumerate_flat_axes. }
  split.
  - apply NoDup_fmap_2; [intros a b Hab; by injection Hab |].
    apply NoDup_product. apply Forall_fmap, Forall_forall. intros n _. simpl.
    apply NoDup_fmap_2; [intros a b Hab; by injection Hab | apply NoDup_py_range].
  - intros x. rewrite list_elem_of_fmap. split.
    + intros (combo & -> & Hcombo).
      apply elem_of_product_ranges in Hcombo as (idx & -> & Hidx). eauto.
    + intros (idx & -> & Hidx). exists (EInt <$> idx). split; [done |].
      apply elem_of_product_ranges. eauto.
Qed.

(** X13. For a MultiDiscrete space with a flat list of axis sizes, none
    negative, whose product fits [np.int64], [count_tasks] is the number
    of tasks that [get_tasks] returns. *)
Theorem count_tasks_is_length_of_get_tasks self (sizes : list Z) :
  Forall (fun n => 0 <= n) sizes →
  foldr Z.mul 1 sizes <= int64_max →
  ∃ xs, get_tasks self (Some (MultiDiscrete (Axes (Size <$> sizes)))) = Ret (EList xs)
    ∧ count_tasks self (Some (MultiDiscrete (Axes (Size <$> sizes))))
      = Ret (Some (Z.of_nat (length xs))).
Proof.
  intros Hpos Hfit.
  exists (ETuple <$> product ((fun n => EInt <$> py_range n) <$> sizes)).
  split.
  { change (get_tasks self (Some (MultiDiscrete (Axes (Size <$> sizes)))))
      with (xs ← _enumerate_axes (Axes (Size <$> sizes)); Ret (EList xs)).
    by rewrite enumerate_flat_axes. }
  rewrite length_fmap, (length_product_ranges sizes Hpos).
  rewrite count_tasks_flat_MultiDiscrete, wrap_int64_fits; [done |].
  split; [| done].
  rewrite <- (length_product_ranges sizes Hpos). unfold int64_min. lia.
Qed.

(** X14. [get_tasks] enumerates no Box (NotImplementedError) and no Tuple
    or Dict that has a subspace: the recursive call names its argument
    [task_space] and raises [TypeError]. A Tuple without subspace gives
    the empty list. *)
Theorem get_tasks_unsupported self (shape : list Z) (s : Space)
    (spaces : list Space) (key : string) (items : list (string * Space)) :
  get_tasks self (Some (Box shape)) = Raise NotImplementedError
  ∧ get_tasks self (Some (Tuple (s :: spaces))) = Raise TypeError
  ∧ get_tasks self (Some (Dict ((key, s) :: items))) = Raise TypeError
  ∧ get_tasks self (Some (Tuple [])) = Ret (EList []).
Proof. repeat split; reflexivity. Qed.

End enumeration_properties.

(** * One iteration of the consumer loop *)

Section queue_wrapper_further.
Import Curriculum MultiProcessingCurriculumWrapper.
Context {C Task Metrics : Type} `{!Curriculum C Task Metrics}.
Implicit Types (self : MultiProcessingCurriculumWrapper.t C Task Metrics)
  (q : list (update_item Metrics)) (tasks : list Task).

Lemma dispatch_messages_empty_buffer tasks :
  dispatch_messages [] tasks = (fun task => mk_message task (Some [])) <$> tasks.
Proof. by destruct tasks. Qed.

(** The state after the thread, left alone, has emptied the update
    queue. *)
Lemma drain_all_state q : ∀ self (r : Z),
  update_thread self = Draining r →
  update_queue self = Some q →
  Nat.iter (length q) _update_queues self
  = mk (drained_curriculum (curriculum self) q) (num_envs self) (task_queue self)
       (Some []) (Draining (r + drained_requests q)) (should_update self)
       (queued_tasks self - drained_requests q) (added_tasks_buffer self)
       (trace self ++ ((fun item => Consume (as_batch item)) <$> q)).
Proof.
  induction q as [| item q IH]; intros self r Hth Hq.
  - destruct self. simpl in *. subst. rewrite app_nil_r. f_equal; [f_equal |]; lia.
  - change (length (item :: q)) with (S (length q)). rewrite Nat.iter_succ_r.
    assert (Hstep : _update_queues self = consume self r item q).
    { unfold _update_queues. by rewrite Hth, Hq. }
    rewrite Hstep, (IH (consume self r item q) (r + requests_of (as_batch item)));
      [| done | done].
    simpl. rewrite requests_of_resample_count, <- app_assoc. simpl.
    f_equal; [f_equal |]; lia.
Qed.

(** The state after the thread has gone through its [for] loop. *)
Lemma dispatch_all_state tasks : ∀ self,
  update_thread self = Dispatching tasks →
  Nat.iter (length tasks) _update_queues self
  = mk (curriculum self) (num_envs self)
       (task_queue self ++ dispatch_messages (added_tasks_buffer self) tasks)
       (update_queue self) (Dispatching []) (should_update self)
       (queued_tasks self + Z.of_nat (length tasks))
       (match tasks with [] => added_tasks_buffer self | _ :: _ => [] end)
       (trace self ++ (Dispatch <$> dispatch_messages (added_tasks_buffer self) tasks)).
Proof.
  induction tasks as [| task rest IH]; intros self Hth.
  - destruct self. simpl in *. subst. by rewrite !app_nil_r, Z.add_0_r.
  - change (length (task :: rest)) with (S (length rest)). rewrite Nat.iter_succ_r.
    assert (Hstep : _update_queues self = dispatch self task rest).
    { unfold _update_queues. by rewrite Hth. }
    rewrite Hstep, (IH (dispatch self task rest)); [| done].
    simpl. rewrite dispatch_messages_empty_buffer, <- !app_assoc. simpl.
    f_equal; [lia | by destruct rest].
Qed.

(** X15. Once the thread is in its [for] loop over the sampled tasks, it
    puts one message per task, in order, also after [stop()]: the first
    message carries the buffer of added tasks, the others an empty list;
    the counter rises by the number of tasks and the buffer is empty
    afterwards (unless there was no task). *)
Theorem dispatch_loop_puts_all tasks self :
  update_thread self = Dispatching tasks →
  let self' := Nat.iter (length tasks) _update_queues self in
  task_queue self'
  = task_queue self ++ dispatch_messages (added_tasks_buffer self) tasks
  ∧ Forall2 (fun m task => next_task m = task)
            (dispatch_messages (added_tasks_buffer self) tasks) tasks
  ∧ queued_tasks self' = queued_tasks self + Z.of_nat (length tasks)
  ∧ added_tasks_buffer self'
    = match tasks with [] => added_tasks_buffer self | _ :: _ => [] end
  ∧ update_thread self' = Dispatching []
  ∧ curriculum self' = curriculum self
  ∧ update_queue self' = update_queue self.
Proof.
  intros Hth self'. subst self'. rewrite (dispatch_all_state tasks self Hth). simpl.
  split; [done |]. split; [| done].
  destruct tasks as [| task rest]; simpl; constructor; [done |].
  clear Hth. induction rest as [| x rest IH]; simpl; constructor; done.
Qed.

(** X16. An iteration that finds [R > 0] requests on the update queue,
    the thread running alone and [sample(k)] returning [k] tasks: the
    thread comes back to the top of its loop having applied every item to
    the curriculum, sampled [R] tasks from the updated curriculum, and
    appended exactly [R] assignment messages for them; the update queue
    and the buffer are empty and the counter is what it was. *)
Theorem iteration_serves_requests self q :
  sample_returns_k →
  update_thread self = AtWhile →
  should_update self = true →
  update_queue self = Some q →
  0 < drained_requests q →
  let c := drained_curriculum (curriculum self) q in
  let new_tasks := (sample c (drained_requests q)).1 in
  ∃ k : nat,
    let self' := Nat.iter k _update_queues self in
    update_thread self' = AtWhile
    ∧ task_queue self'
      = task_queue self ++ dispatch_messages (added_tasks_buffer self) new_tasks
    ∧ Z.of_nat (length (dispatch_messages (added_tasks_buffer self) new_tasks))
      = drained_requests q
    ∧ curriculum self' = (sample c (drained_requests q)).2
    ∧ update_queue self' = Some []
    ∧ added_tasks_buffer self' = []
    ∧ queued_tasks self' = queued_tasks self.
Proof.
  intros Hk Hth Hrun Hq HR c new_tasks.
  exists (2 + (length new_tasks + (1 + (length q + 1))))%nat.
  rewrite !Nat.iter_add.
  assert (H1 : Nat.iter 1 _update_queues self = goto self (Draining 0)).
  { simpl. unfold _update_queues. by rewrite Hth, Hrun. }
  rewrite H1, (drain_all_state q (goto self (Draining 0)) 0) by done.
  simpl Z.add.
  pose proof (Hk c (drained_requests q) ltac:(lia)) as Hlen.
  fold new_tasks in Hlen.
  match goal with
  | |- context [Nat.iter 1 _update_queues ?s] =>
      assert (H3 : Nat.iter 1 _update_queues s
                   = mk (sample c (drained_requests q)).2 (num_envs self)
                        (task_queue self) (Some []) (Dispatching new_tasks)
                        (should_update self)
                        (queued_tasks self - drained_requests q)
                        (added_tasks_buffer self)
                        (trace self ++ ((fun item => Consume (as_batch item)) <$> q)))
  end.
  { simpl. unfold _update_queues. simpl. rewrite decide_True by lia.
    fold c. unfold new_tasks. rewrite Z.add_0_l.
    by destruct (sample c (drained_requests q)). }
  rewrite H3. rewrite (dispatch_all_state new_tasks) by reflexivity. simpl.
  assert (Hmsgs : length (dispatch_messages (added_tasks_buffer self) new_tasks)
                  = length new_tasks).
  { destruct new_tasks; simpl; [done |]. by rewrite length_fmap. }
  split; [done |]. split; [done |]. split; [rewrite Hmsgs, Hlen; lia |].
  split; [done |]. split; [done |]. split; [| lia].
  destruct new_tasks as [| task rest] eqn:Hnew; [| done].
  simpl in Hlen. lia.
Qed.

(** X17. An iteration that finds no request on the update queue, the
    thread running alone: every item is applied to the curriculum all the
    same, and the thread comes back to the top of its loop without having
    sampled or put any message; the task queue, the buffer and the
    counter are what they were. *)
Theorem iteration_without_request self q :
  update_thread self = AtWhile →
  should_update self = true →
  update_queue self = Some q →
  drained_requests q = 0 →
  let self' := Nat.iter (length q + 3) _update_queues self in
  update_thread self' = AtWhile
  ∧ curriculum self' = drained_curriculum (curriculum self) q
  ∧ task_queue self' = task_queue self
  ∧ dispatched (trace self') = dispatched (trace self)
  ∧ update_queue self' = Some []
  ∧ added_tasks_buffer self' = added_tasks_buffer self
  ∧ queued_tasks self' = queued_tasks self.
Proof.
  intros Hth Hrun Hq HR self'. subst self'.
  replace (length q + 3)%nat with (2 + (length q + 1))%nat by lia.
  rewrite !Nat.iter_add.
  assert (H1 : Nat.iter 1 _update_queues self = goto self (Draining 0)).
  { simpl. unfold _update_queues. by rewrite Hth, Hrun. }
  rewrite H1, (drain_all_state q (goto self (Draining 0)) 0) by done.
  rewrite HR. simpl.
  split; [done |]. split; [done |]. split; [done |]. split; [| split; [done |]; split; [done | lia]].
  rewrite dispatched_app.
  assert (Hnone : dispatched ((fun item => Consume (Task := Task) (as_batch item)) <$> q) = 0).
  { clear. induction q as [| item q IH]; simpl; done. }
  rewrite Hnone. lia.
Qed.

(** X18. [stop()] is seen at the top of the loop only: from there the
    thread finishes with its next step and never changes the wrapper
    again, however many steps it is given. *)
Theorem stopped_thread_finishes self (k : nat) :
  update_thread self = AtWhile →
  Nat.iter (S k) _update_queues (stop self) = goto (stop self) Finished.
Proof.
  intros Hth. induction k as [| k IH].
  - simpl. unfold _update_queues. simpl. by rewrite Hth.
  - change (Nat.iter (S (S k)) _update_queues (stop self))
      with (_update_queues (Nat.iter (S k) _update_queues (stop self))).
    rewrite IH. done.
Qed.

End queue_wrapper_further.

(** * What the wrapper of [remote_call] does to the methods it decorates *)

Section actor_wrapper_further.
Import RayCurriculumWrapper.
Context {Args : Type}.
Variable decorated : string → bool.

(** X19. Every method of the facade that the class decorator has wrapped
    with [remote_call], whether [RayCurriculumWrapper] overrides it (as
    [sample] and [add_task]) or not, returns [None] when it is called: the
    wrapper neither forwards the call nor runs the method it wraps. *)
Theorem decorated_method_returns_none (self : nat) (name : string) (args : Args) :
  decorated name = true →
  name ∈ base_methods →
  call decorated self name args = ReturnNone.
Proof.
  intros Hd Hbase.
  assert (Hbody : ∃ f, class_body_lookup name = Some f ∧ __name__ f = name).
  { unfold class_body_lookup. case_decide; [eauto |].
    rewrite decide_True by done. eauto. }
  destruct Hbody as (f & Hf & Hname).
  unfold call, class_lookup. rewrite Hd, Hf. simpl.
  unfold wrapper. simpl. rewrite Hname.
  unfold getattr_base, getattr, class_lookup.
  rewrite decide_True by done. rewrite Hd, Hf. done.
Qed.

End actor_wrapper_further.

(** * The further properties on concrete inputs *)

Section further_examples.
Import TaskSpace Curriculum MultiProcessingCurriculumWrapper Examples.

Lemma encode_unlisted_task_witness :
  ("c" ∉ ["a"; "b"])
  ∧ ∃ self, TaskSpace.__init__ (Discrete 2) ["a"; "b"] = Ret self
      ∧ encode self "c" = Ret PyNone.
Proof.
  assert (Hnot : "c" ∉ ["a"; "b"]).
  { refine (bool_decide_unpack _ _). vm_compute. exact I. }
  split; [exact Hnot | exact (encode_unlisted_task ["a"; "b"] "c" Hnot)].
Defined.

Lemma encode_last_position_witness :
  ∃ self, TaskSpace.__init__ (Discrete 3) ["a"; "b"; "a"] = Ret self
    ∧ encode self "a" = Ret (PyInt 2).
Proof.
  apply (encode_last_position ["a"; "b"; "a"] 2 "a").
  - reflexivity.
  - apply not_elem_of_nil.
Defined.

Lemma decode_listed_position_witness :
  ∃ self, TaskSpace.__init__ (Discrete 2) ["a"; "b"] = Ret self
    ∧ decode self (PyInt 1) = Ret (PyObj "b")
    ∧ contains self (PyInt 1) = Ret true.
Proof.
  apply (decode_listed_position ["a"; "b"] 1 "b").
  - reflexivity.
  - unfold int64_max. simpl. lia.
Defined.

(** [TaskSpace(Discrete(2), [None, "a"])]: index 5 decodes to [None],
    which is a task, and [contains(5)] is true. *)
Lemma index_out_of_range_witness :
  let self : TaskSpace.t (option string) :=
    TaskSpace.mk (Some (Discrete 2)) MapLookup MapLookup
       (make_encode_map [None; Some "a"]) (make_decode_map [None; Some "a"])
       [None; Some "a"] in
  TaskSpace.__init__ (Discrete 2) [None; Some "a"] = Ret self
  ∧ decode self (PyInt 5) = Ret PyNone
  ∧ contains self (PyInt 5) = Ret true.
Proof.
  intros self.
  assert (Hout : ¬ (0 <= 5 < 2)) by lia.
  destruct (index_out_of_range self 2 5 eq_refl eq_refl Hout) as (Hd & Hc & _).
  split; [reflexivity |]. split; [exact Hd | exact Hc].
Defined.

(** [TaskSpace(Discrete(2), ["a", "b"])]: [contains(5)] is false. *)
Example contains_out_of_range_without_None :
  let self : TaskSpace.t string :=
    TaskSpace.mk (Some (Discrete 2)) MapLookup MapLookup
       (make_encode_map ["a"; "b"]) (make_decode_map ["a"; "b"]) ["a"; "b"] in
  decode self (PyInt 5) = Ret PyNone ∧ contains self (PyInt 5) = Ret false.
Proof. split; reflexivity. Qed.

Lemma init_returns_only_for_witness :
  let self : TaskSpace.t string :=
    TaskSpace.mk (Some (Discrete 2)) MapLookup MapLookup
       (make_encode_map ["a"; "b"]) (make_decode_map ["a"; "b"]) ["a"; "b"] in
  (Discrete 2 = Discrete (Z.of_nat (length ["a"; "b"])) ∨ ∃ shape, Discrete 2 = Box shape)
  ∧ gym_space self = Some (Discrete 2)
  ∧ _tasks self = set_of_list ["a"; "b"].
Proof.
  intros self.
  exact (init_returns_only_for (Discrete 2) ["a"; "b"] self eq_refl).
Defined.

Lemma add_task_keeps_size_witness :
  let self : TaskSpace.t string :=
    TaskSpace.mk (Some (Discrete 2)) MapLookup MapLookup
       (make_encode_map ["a"; "b"]) (make_decode_map ["a"; "b"]) ["a"; "b"] in
  ∃ self', TaskSpace.add_task self "c" = (Ret tt, self')
    ∧ _tasks self' = ["a"; "b"; "c"]
    ∧ gym_space self' = Some (Discrete 3)
    ∧ num_tasks self = Ret (Some 2)
    ∧ num_tasks self' = Ret (Some 3).
Proof.
  intros self.
  assert (Hnew : "c" ∉ _tasks self).
  { refine (bool_decide_unpack _ _). vm_compute. exact I. }
  destruct (add_task_keeps_size self 2 "c" eq_refl eq_refl Hnew)
    as (self' & Hadd & Htasks & Hsp & Hn & Hn').
  exists self'. split; [exact Hadd |]. split; [exact Htasks |].
  split; [| split; [exact Hn | exact Hn']].
  rewrite Hsp, Htasks. reflexivity.
Defined.

Lemma add_task_keeps_roundtrip_witness :
  let self : TaskSpace.t string :=
    TaskSpace.mk (Some (Discrete 2)) MapLookup MapLookup
       (make_encode_map ["a"; "b"]) (make_decode_map ["a"; "b"]) ["a"; "b"] in
  ∃ self', TaskSpace.add_task self "c" = (Ret tt, self')
    ∧ (∀ t, t ∈ _tasks self' →
         ∃ i : Z, encode self' t = Ret (PyInt i) ∧ decode self' (PyInt i) = Ret (PyObj t))
    ∧ (∀ i : Z, 0 <= i < 2 + 1 →
         ∃ t, t ∈ _tasks self'
           ∧ decode self' (PyInt i) = Ret (PyObj t) ∧ encode self' t = Ret (PyInt i)).
Proof.
  intros self.
  apply (add_task_keeps_roundtrip self 2 "c").
  - intros s. apply Permutation_refl.
  - reflexivity.
  - reflexivity.
  - unfold int64_max. lia.
  - refine (bool_decide_unpack _ _). vm_compute. exact I.
  - refine (bool_decide_unpack _ _). vm_compute. exact I.
Defined.

Lemma add_task_on_Box_witness :
  let self : TaskSpace.t string :=
    TaskSpace.mk (Some (Box [2])) (BoxFilter (Box [2])) (BoxFilter (Box [2])) ∅ ∅ [] in
  ∃ self', TaskSpace.add_task self "a" = (Raise NotImplementedError, self')
    ∧ gym_space self' = None
    ∧ _tasks self' = ["a"]
    ∧ (∀ x, decode self' x = Raise AttributeError)
    ∧ TaskSpace.add_task self' "a" = (Ret tt, self').
Proof.
  intros self. apply (add_task_on_Box self [2] "a").
  - reflexivity.
  - apply not_elem_of_nil.
Defined.

Lemma add_task_size_mismatch_witness :
  let self : TaskSpace.t string :=
    TaskSpace.mk (Some (Discrete 2)) MapLookup MapLookup
       (make_encode_map ["a"; "a"]) (make_decode_map ["a"; "a"]) ["a"] in
  ∃ self', TaskSpace.add_task self "b" = (Raise AssertionError, self')
    ∧ _tasks self' = ["a"; "b"]
    ∧ num_tasks self' = Ret (Some 3)
    ∧ _encode_map self' = _encode_map self
    ∧ _decode_map self' = _decode_map self
    ∧ encode self' "b" = encode self "b".
Proof.
  intros self. apply (add_task_size_mismatch self 2 "b").
  - reflexivity.
  - simpl. lia.
  - refine (bool_decide_unpack _ _). vm_compute. exact I.
Defined.

Lemma count_tasks_flat_axes_witness :
  count_tasks (TaskSpace.blank (Task := string))
    (Some (MultiDiscrete (Axes [Size 3; Size 4; Size 5]))) = Ret (Some 60)
  ∧ count_tasks (TaskSpace.blank (Task := string))
      (Some (MultiBinary (Axes [Size 3; Size 4; Size 5]))) = Ret (Some 60).
Proof.
  apply (count_tasks_flat_axes (TaskSpace.blank (Task := string)) [3; 4; 5]).
  unfold int64_min, int64_max. simpl. lia.
Defined.

Lemma tasks_of_Discrete_witness :
  let self : TaskSpace.t string :=
    TaskSpace.mk (Some (Discrete 2)) MapLookup MapLookup
       (make_encode_map ["a"; "b"]) (make_decode_map ["a"; "b"]) ["a"; "b"] in
  ∃ xs, TaskSpace.tasks self = Ret (EList xs)
    ∧ num_tasks self = Ret (Some (Z.of_nat (length xs)))
    ∧ (∀ i : Z, 0 <= i < 2 → xs !! Z.to_nat i = Some (EInt i))
    ∧ (∀ x, x ∈ xs → ∃ i : Z, x = EInt i ∧ 0 <= i < 2).
Proof.
  intros self. apply (tasks_of_Discrete self 2); [reflexivity | lia].
Defined.

Lemma count_tasks_is_length_of_get_tasks_witness :
  ∃ xs, get_tasks (TaskSpace.blank (Task := string))
          (Some (MultiDiscrete (Axes [Size 2; Size 3]))) = Ret (EList xs)
    ∧ count_tasks (TaskSpace.blank (Task := string))
        (Some (MultiDiscrete (Axes [Size 2; Size 3])))
      = Ret (Some (Z.of_nat (length xs))).
Proof.
  apply (count_tasks_is_length_of_get_tasks (TaskSpace.blank (Task := string)) [2; 3]).
  - repeat (apply Forall_cons_2; [lia |]). apply Forall_nil_2.
  - unfold int64_max. simpl. lia.
Defined.

(** The thread of [update_posted] after it has entered its loop, drained
    the request and sampled one task: it stands in its [for] loop. *)
Lemma dispatch_loop_puts_all_witness :
  let self := Nat.iter 3 _update_queues update_posted in
  update_thread self = Dispatching [2]
  ∧ task_queue (Nat.iter 1 _update_queues self)
    = [mk_message 0 None; mk_message 1 None; mk_message 2 (Some [])]
  ∧ queued_tasks (Nat.iter 1 _update_queues self) = 0.
Proof.
  intros self.
  assert (Hth : update_thread self = Dispatching [2]) by reflexivity.
  destruct (dispatch_loop_puts_all [2] self Hth) as (Hq & _ & Hcr & _).
  split; [exact Hth |]. split; [exact Hq | exact Hcr].
Defined.

Lemma iteration_serves_requests_witness :
  ∃ k : nat,
    update_thread (Nat.iter k _update_queues update_posted) = AtWhile
    ∧ task_queue (Nat.iter k _update_queues update_posted)
      = [mk_message 0 None; mk_message 1 None; mk_message 2 (Some [])]
    ∧ queued_tasks (Nat.iter k _update_queues update_posted) = 0.
Proof.
  assert (HR : 0 < drained_requests [OneUpdate (mk_update tt (Some true))])
    by (simpl; lia).
  destruct (iteration_serves_requests update_posted
              [OneUpdate (mk_update tt (Some true))]
              counting_returns_k eq_refl eq_refl eq_refl HR)
    as (k & Hth & Hq & _ & _ & _ & _ & Hcr).
  exists k. split; [exact Hth |]. split; [exact Hq | exact Hcr].
Defined.

Lemma iteration_without_request_witness :
  let self : MultiProcessingCurriculumWrapper.t Z Z unit :=
    MultiProcessingCurriculumWrapper.mk 2 2 [] (Some [OneUpdate (mk_update tt None)])
      AtWhile true 0 [] [] in
  update_thread (Nat.iter 4 _update_queues self) = AtWhile
  ∧ task_queue (Nat.iter 4 _update_queues self) = []
  ∧ update_queue (Nat.iter 4 _update_queues self) = Some [].
Proof.
  intros self.
  destruct (iteration_without_request self [OneUpdate (mk_update tt None)]
              eq_refl eq_refl eq_refl eq_refl)
    as (Hth & _ & Hq & _ & Hu & _).
  split; [exact Hth |]. split; [exact Hq | exact Hu].
Defined.

Lemma stopped_thread_finishes_witness :
  Nat.iter 3 _update_queues (stop started) = goto (stop started) Finished.
Proof. exact (stopped_thread_finishes started 2 eq_refl). Defined.

Lemma decorated_method_returns_none_witness :
  RayCurriculumWrapper.call (fun _ => true) 0%nat "sample" tt
  = RayCurriculumWrapper.ReturnNone.
Proof.
  apply (decorated_method_returns_none (fun _ => true) 0%nat "sample" tt).
  - reflexivity.
  - refine (bool_decide_unpack _ _). vm_compute. exact I.
Defined.

End further_examples.

(** * Building the queue wrapper, and announcing added tasks *)

Section queue_wrapper_construction.
Import Curriculum MultiProcessingCurriculumWrapper.
Context {C Task Metrics : Type} `{!Curriculum C Task Metrics}.
Implicit Types (self : MultiProcessingCurriculumWrapper.t C Task Metrics).

(** X20. [make_multiprocessing_curriculum(curriculum, N)] returns a
    started wrapper and its two queues: the task queue holds the seed
    messages of the [N] tasks that the curriculum sampled, one per worker
    and none with [added_tasks], the update queue is empty, and the
    counter is zero. *)
Theorem make_multiprocessing_curriculum_seeds (c : C) (n : Z) :
  sample_returns_k →
  0 <= n →
  let made := make_multiprocessing_curriculum c n in
  reachable made.1.1
  ∧ made.1.2 = (fun task => mk_message task None) <$> (sample c n).1
  ∧ Z.of_nat (length made.1.2) = n
  ∧ made.2 = Some []
  ∧ task_queue made.1.1 = made.1.2
  ∧ curriculum made.1.1 = (sample c n).2
  ∧ queued_tasks made.1.1 = 0
  ∧ update_thread made.1.1 = AtWhile.
Proof.
  intros Hk Hn made. subst made. unfold make_multiprocessing_curriculum. simpl.
  destruct (start_fields (__init__ c n [] (Some [])))
    as (Hq & _ & Hc & Hcr & _ & Hu & _ & Hth).
  simpl in Hq, Hc, Hcr, Hu.
  split; [apply reachable_start |]. split; [exact Hq |]. split.
  { rewrite Hq, length_fmap, (Hk c n Hn). lia. }
  split; [exact Hu |]. split; [done |]. split; [exact Hc |].
  split; [exact Hcr | exact Hth].
Qed.

(** X21. A task added while replacements are about to be dispatched is
    announced once: the first message of the loop carries the buffer with
    the new task at its end, the following messages carry an empty list,
    the buffer is empty afterwards, and the curriculum has the task. *)
Theorem added_task_is_announced_once self (task : Task) (rest : list Task) (x : Task) :
  update_thread self = Dispatching (task :: rest) →
  let self' :=
    Nat.iter (S (length rest)) _update_queues
             (MultiProcessingCurriculumWrapper.add_task self x) in
  task_queue self'
  = task_queue self
    ++ mk_message task (Some (added_tasks_buffer self ++ [x]))
       :: ((fun t => mk_message t (Some [])) <$> rest)
  ∧ added_tasks_buffer self' = []
  ∧ curriculum self' = Curriculum.add_task (curriculum self) x
  ∧ queued_tasks self' = queued_tasks self + Z.of_nat (S (length rest)).
Proof.
  intros Hth self'. subst self'.
  change (S (length rest)) with (length (task :: rest)).
  rewrite (dispatch_all_state (task :: rest)
             (MultiProcessingCurriculumWrapper.add_task self x)) by exact Hth.
  simpl. done.
Qed.

End queue_wrapper_construction.

Section queue_wrapper_construction_examples.
Import Curriculum MultiProcessingCurriculumWrapper Examples.

Lemma make_multiprocessing_curriculum_seeds_witness :
  let made := make_multiprocessing_curriculum (C := Z) (Task := Z) (Metrics := unit) 0 2 in
  reachable made.1.1
  ∧ made.1.2 = [mk_message 0 None; mk_message 1 None]
  ∧ made.2 = Some []
  ∧ queued_tasks made.1.1 = 0.
Proof.
  intros made.
  assert (Hn : 0 <= 2) by lia.
  destruct (make_multiprocessing_curriculum_seeds 0 2 counting_returns_k Hn)
    as (Hreach & Hq & _ & Hu & _ & _ & Hcr & _).
  split; [exact Hreach |]. split; [exact Hq |]. split; [exact Hu | exact Hcr].
Defined.

Lemma added_task_is_announced_once_witness :
  let self := Nat.iter 3 _update_queues update_posted in
  update_thread self = Dispatching [2]
  ∧ task_queue (Nat.iter 1 _update_queues (MultiProcessingCurriculumWrapper.add_task self 9))
    = [mk_message 0 None; mk_message 1 None; mk_message 2 (Some [9])]
  ∧ added_tasks_buffer
      (Nat.iter 1 _update_queues (MultiProcessingCurriculumWrapper.add_task self 9)) = [].
Proof.
  intros self.
  assert (Hth : update_thread self = Dispatching [2]) by reflexivity.
  destruct (added_task_is_announced_once self 2 [] 9 Hth) as (Hq & Hb & _).
  split; [exact Hth |]. split; [exact Hq | exact Hb].
Defined.

End queue_wrapper_construction_examples.
